(** * Fraud-monitoring dashboard: client-side state reconciliation

    A shallow embedding of the React components of the dashboard
    (Dashboard, AlertPanel, HeatMap/HeatMapLayer, TransactionMap) and
    the properties of its reducers:

    - the alert policy and the bounded alert list (cap 20),
    - the bounded transaction history (cap 50) and the full refresh,
    - dismissal of alerts by identifier,
    - the displayed fraud rate,
    - the colour ladders, the heat intensity and radius,
    - the coordinate filter of the transaction map.

    JavaScript numbers are IEEE-754 binary64 values; they are modelled
    by Rocq's primitive floats, which compute with the same rounding.
    React state is threaded explicitly: every [setX(prev => ...)] of the
    source is a function from the previous state to the next one. *)

From Stdlib Require Import ZArith String Ascii Floats Lia.
From stdpp Require Import base list strings gmap pretty.

Set Warnings "-inexact-float".

(** ** The fragment of JavaScript the components rely on *)

Module Js.

Local Open Scope float_scope.

(** *** Numbers *)

(** [ToBoolean] on a number: [0], [-0] and [NaN] are falsy. *)
Definition truthy_number (x : float) : bool :=
  negb (is_zero x || is_nan x).

(** [x || d] where [x] is a number. *)
Definition number_or (x d : float) : float :=
  if truthy_number x then x else d.

Definition is_neg_zero (x : float) : bool :=
  match classify x with NZero => true | _ => false end.

Definition is_pos_zero (x : float) : bool :=
  match classify x with PZero => true | _ => false end.

(** [Math.min(a, b)]: [NaN] is contagious and [-0] is below [+0]. *)
Definition Math_min (a b : float) : float :=
  if is_nan a || is_nan b then nan
  else if a <? b then a
  else if b <? a then b
  else if is_neg_zero a then a else b.

(** [Math.max(a, b)]: [NaN] is contagious and [+0] is above [-0]. *)
Definition Math_max (a b : float) : float :=
  if is_nan a || is_nan b then nan
  else if b <? a then a
  else if a <? b then b
  else if is_pos_zero a then a else b.

(** *** Text

    A piece of rendered text.  [Number::toString] (the shortest
    round-tripping decimal of a double) is not unfolded: a number
    interpolated into a template literal stays a [NumberToString]
    node.  Everything else is a concrete string. *)
Inductive fragment : Type :=
| Text (s : string)
| NumberToString (x : float).

(** A template literal is the sequence of its pieces. *)
Definition template := list fragment.

Definition upper_ascii (c : ascii) : ascii :=
  let n := N_of_ascii c in
  if ((97 <=? n) && (n <=? 122))%N then ascii_of_N (n - 32) else c.

(** [String.prototype.toUpperCase], on the ASCII letters. *)
Fixpoint toUpperCase (s : string) : string :=
  match s with
  | EmptyString => EmptyString
  | String c rest => String (upper_ascii c) (toUpperCase rest)
  end.

(** The integer [n] for which [n / 10 - m * 2^e] is closest to zero,
    the larger one when two are equally close. *)
Definition nearest_tenths (m : positive) (e : Z) : Z :=
  if (0 <=? e)%Z then (10 * Z.pos m * 2 ^ e)%Z
  else let d := (2 ^ (- e))%Z in ((20 * Z.pos m + d) / (2 * d))%Z.

(** [10^21 <= m * 2^e]. *)
Definition at_least_1e21 (m : positive) (e : Z) : bool :=
  if (0 <=? e)%Z then (10 ^ 21 <=? Z.pos m * 2 ^ e)%Z
  else (10 ^ 21 * 2 ^ (- e) <=? Z.pos m)%Z.

(** The digits of [n] with a point before the last one. *)
Definition one_decimal (n : Z) : string :=
  (pretty (n / 10)%Z ++ "." ++ pretty (n mod 10)%Z)%string.

(** [Number.prototype.toFixed(1)]. *)
Definition toFixed1 (x : float) : fragment :=
  match Prim2SF x with
  | S754_nan => Text "NaN"
  | S754_infinity false => Text "Infinity"
  | S754_infinity true => Text "-Infinity"
  | S754_zero _ => Text "0.0"
  | S754_finite s m e =>
      if at_least_1e21 m e then NumberToString x
      else Text ((if s then "-" else "") ++ one_decimal (nearest_tenths m e))
  end.

(** No character of the string is a dash. *)
Fixpoint no_dash (s : string) : Prop :=
  match s with
  | EmptyString => True
  | String c rest => c ≠ "-"%char ∧ no_dash rest
  end.

(** *** Dynamically typed values (what JSON delivers) *)

#[warnings="-register-all"]
Inductive value : Type :=
| Undefined
| Null
| Boolean (b : bool)
| Number (x : float)
| Str (s : string)
| Object (props : gmap string value).

Definition typeof (v : value) : string :=
  match v with
  | Undefined => "undefined"
  | Null => "object"
  | Boolean _ => "boolean"
  | Number _ => "number"
  | Str _ => "string"
  | Object _ => "object"
  end.

Definition ToBoolean (v : value) : bool :=
  match v with
  | Undefined | Null => false
  | Boolean b => b
  | Number x => truthy_number x
  | Str s => negb (String.eqb s "")
  | Object _ => true
  end.

(** Completion of an evaluation: a value or a thrown exception. *)
Inductive error : Type := TypeError.

Inductive result (A : Type) : Type :=
| Ok (a : A)
| Throw (e : error).
Arguments Ok {A} a.
Arguments Throw {A} e.

#[global] Instance result_bind : MBind result := fun A B k r =>
  match r with
  | Ok a => k a
  | Throw e => Throw e
  end.

(** [v.p]: reading a property of [undefined] or [null] throws; a
    primitive has no own data property of the names used here. *)
Definition Get (v : value) (p : string) : result value :=
  match v with
  | Undefined | Null => Throw TypeError
  | Object props => Ok (default Undefined (props !! p))
  | Boolean _ | Number _ | Str _ => Ok Undefined
  end.

(** [Array.prototype.filter] with a callback that may throw. *)
Fixpoint filter_array {A : Type} (f : A -> result bool) (l : list A)
  : result (list A) :=
  match l with
  | [] => Ok []
  | a :: rest =>
      keep ← f a;
      kept ← filter_array f rest;
      Ok (if keep : bool then a :: kept else kept)
  end.

End Js.

(** ** Data model *)

Module Transaction.

(** A transaction event as the backend delivers it.  The location is
    optional and is validated dynamically by the map, so it is kept
    as a dynamically typed value. *)
Record t : Type := {
  transaction_id : string;
  timestamp : string;
  amount : float;
  location : Js.value;
  risk_score : float;
  action : string
}.

End Transaction.

Module Alert.

Record t : Type := {
  id : Z;                  (* Date.now(), in milliseconds *)
  timestamp : string;      (* new Date().toISOString() *)
  message : Js.template;
  type : string;
  transaction_id : string
}.

End Alert.

(** ** AlertPanel *)

Module AlertPanel.

(** The three emoji of [getAlertIcon]: the no-entry sign, the warning
    sign and, by default, the bell. *)
Inductive icon : Type := NoEntry | Warning | Bell.

Definition getAlertIcon (type : string) : icon :=
  if String.eqb type "block" then NoEntry
  else if String.eqb type "flag" then Warning
  else Bell.

(** One entry of the rendered list; its React key is [alert.id], and
    [time] is the timestamp handed to [formatTime]. *)
Record item : Type := {
  key : Z;
  time : string;
  sign : icon;
  text : Js.template
}.

Record panel : Type := {
  header_count : nat;      (* "Real-Time Alerts (n)" *)
  items : list item
}.

(** The component: nothing for an empty list, else the header and one
    entry per alert, in the order of the list. *)
Definition render (alerts : list Alert.t) : option panel :=
  if (length alerts =? 0)%nat then None
  else Some {| header_count := length alerts;
               items := (fun alert =>
                           {| key := Alert.id alert;
                              time := Alert.timestamp alert;
                              sign := getAlertIcon (Alert.type alert);
                              text := Alert.message alert |}) <$> alerts |}.

End AlertPanel.

(** ** HeatMap *)

Module HeatMap.

Import Js.
Local Open Scope float_scope.

(** The grouping key of a hotspot.  [None] stands for a coordinate
    that is [null] or absent. *)
Record HotspotId : Type := {
  lat : option float;
  lng : option float;
  city : string;
  country : string
}.

(** [avg_risk_score] is [None] when the aggregate carries no number
    ([null] or absent).  The backend delivers the average as a number;
    a score of another type (a string, say) is not represented, and
    nothing below speaks about one. *)
Record Hotspot : Type := {
  _id : HotspotId;
  fraud_count : float;
  avg_risk_score : option float
}.

Definition getHeatColor (intensity : float) : string :=
  if 0.8 <=? intensity then "#FF0000"
  else if 0.6 <=? intensity then "#FF4500"
  else if 0.4 <=? intensity then "#FF8C00"
  else if 0.2 <=? intensity then "#FFD700"
  else "#FFFF00".

(** [point.avg_risk_score || 0.5] *)
Definition risk_or_default (point : Hotspot) : float :=
  match avg_risk_score point with
  | Some x => number_or x 0.5
  | None => 0.5
  end.

(** One element of [heatPoints] before the filter:
    [[lat, lng, Math.min(avg_risk_score || 0.5, 1.0)]]. *)
Definition heatPoint (point : Hotspot)
  : option float * option float * float :=
  (lat (_id point), lng (_id point), Math_min (risk_or_default point) 1.0).

Definition intensity (point : Hotspot) : float := (heatPoint point).2.

(** The filter of [heatPoints]: both coordinates are numbers other
    than [NaN].  A [null] fails the [!== null] test and an absent
    coordinate fails [!isNaN]. *)
Definition plottable (p : option float * option float * float)
  : option (float * float * float) :=
  match p with
  | (Some la, Some ln, i) =>
      if negb (is_nan la) && negb (is_nan ln) then Some (la, ln, i) else None
  | _ => None
  end.

Definition heatPoints (heatMapData : list Hotspot)
  : list (float * float * float) :=
  omap plottable (heatPoint <$> heatMapData).

Record CircleMarker : Type := {
  center : float * float;
  radius : float;
  fillColor : string;
  color : string
}.

(** The body of [heatPoints.forEach]. *)
Definition circle (p : float * float * float) : CircleMarker :=
  let '(la, ln, i) := p in
  {| center := (la, ln);
     radius := Math_max (i * 50) 10;
     fillColor := getHeatColor i;
     color := getHeatColor i |}.

(** The circles of the layer built by the effect of [HeatMapLayer];
    none when the data or the filtered points are empty. *)
Definition heatLayer (heatMapData : list Hotspot) : list CircleMarker :=
  circle <$> heatPoints heatMapData.

Definition getThreatLevel (riskScore : float) : string :=
  if 0.8 <=? riskScore then "🚨 Critical"
  else if 0.6 <=? riskScore then "⚠️ High"
  else if 0.4 <=? riskScore then "⚡ Medium"
  else if 0.2 <=? riskScore then "🟡 Low-Medium"
  else "🟢 Low".

(** [c === x] for a coordinate [c] of the data and a number [x]. *)
Definition same_coordinate (c : option float) (x : float) : bool :=
  match c with
  | Some y => y =? x
  | None => false
  end.

(** [p._id.lat === lat && p._id.lng === lng] *)
Definition at_coordinates (la ln : float) (p : Hotspot) : bool :=
  same_coordinate (lat (_id p)) la && same_coordinate (lng (_id p)) ln.

(** [heatMapData.find(p => p._id.lat === lat && p._id.lng === lng)]:
    the hotspot whose details the popup of a circle shows. *)
Definition pointData (heatMapData : list Hotspot) (la ln : float)
  : option Hotspot :=
  List.find (at_coordinates la ln) heatMapData.

(** [getThreatLevel(pointData.avg_risk_score)]: without a number every
    comparison of the ladder fails. *)
Definition popup_threat (point : Hotspot) : string :=
  match avg_risk_score point with
  | Some x => getThreatLevel x
  | None => "🟢 Low"
  end.

(** A colour of the circles and a threat level of the popups that
    stand for the same step of the ladder. *)
Definition same_step (colour level : string) : Prop :=
  (colour = "#FF0000" ∧ level = "🚨 Critical")
  ∨ (colour = "#FF4500" ∧ level = "⚠️ High")
  ∨ (colour = "#FF8C00" ∧ level = "⚡ Medium")
  ∨ (colour = "#FFD700" ∧ level = "🟡 Low-Medium")
  ∨ (colour = "#FFFF00" ∧ level = "🟢 Low").

(** The state of the [HeatMap] component. *)
Record State : Type := {
  heatMapData : list Hotspot;
  loading : bool;
  error : option string;
  lastUpdate : option Z
}.

Definition initial : State :=
  {| heatMapData := []; loading := true; error := None; lastUpdate := None |}.

(** The steps of [loadHeatMapData]: its start, and its two outcomes. *)
Inductive fetch : Type :=
| FetchStarted                                      (* setError(null) *)
| FetchResolved (data : list Hotspot) (now : Z)     (* data, lastUpdate; finally *)
| FetchRejected.                                    (* setError(...); finally *)

Definition step (s : State) (e : fetch) : State :=
  match e with
  | FetchStarted =>
      {| heatMapData := heatMapData s; loading := loading s;
         error := None; lastUpdate := lastUpdate s |}
  | FetchResolved data now =>
      {| heatMapData := data; loading := false;
         error := error s; lastUpdate := Some now |}
  | FetchRejected =>
      {| heatMapData := heatMapData s; loading := false;
         error := Some "Failed to load heat map data";
         lastUpdate := lastUpdate s |}
  end.

Definition run (s : State) (events : list fetch) : State :=
  foldl step s events.

(** What the component returns: the spinner, the error message with
    its retry button, or the map view, of which the layer of circles
    and the "no hotspots" message are kept here. *)
Inductive screen : Type :=
| Spinner
| ErrorMessage (message : string)
| Map (layer : list CircleMarker) (no_data_message : bool).

Definition render (s : State) : screen :=
  if loading s then Spinner
  else match error s with
       | Some message => ErrorMessage message
       | None => Map (heatLayer (heatMapData s))
                     (length (heatMapData s) =? 0)%nat
       end.

(** The payload and time of the last successful fetch of a history. *)
Definition last_resolved (events : list fetch) : option (list Hotspot * Z) :=
  foldl (fun acc e => match e with
                      | FetchResolved data now => Some (data, now)
                      | _ => acc
                      end) None events.

Definition completes (e : fetch) : bool :=
  match e with
  | FetchStarted => false
  | _ => true
  end.

End HeatMap.

(** ** TransactionMap *)

Module TransactionMap.

Import Js.
Local Open Scope float_scope.

Definition getRiskColor (riskScore : float) : string :=
  if 0.8 <=? riskScore then "#F44336"
  else if 0.5 <=? riskScore then "#FF9800"
  else if 0.3 <=? riskScore then "#FFC107"
  else "#4CAF50".

(** [typeof v === 'number'], giving the number. *)
Definition as_number (v : value) : option float :=
  match v with
  | Number x => Some x
  | _ => None
  end.

(** The callback of [validTransactions]; [&&] evaluates its right
    operand only when the left one is truthy. *)
Definition has_coordinates (t : Transaction.t) : result bool :=
  let location := Transaction.location t in
  if negb (ToBoolean location) then Ok false else
  lat ← Get location "lat";
  match as_number lat with
  | None => Ok false
  | Some la =>
      lng ← Get location "lng";
      match as_number lng with
      | None => Ok false
      | Some ln => Ok (negb (is_nan la) && negb (is_nan ln))
      end
  end.

(** [transaction.risk_score || transaction.confidence_score || 0] for
    scores as the backend delivers them: [risk_score] a number and
    [confidence_score] a number or, as [None], [null] or absent.  A
    score of another type (a string, say) is not represented. *)
Definition riskScore (risk_score : float) (confidence_score : option float)
  : float :=
  if truthy_number risk_score then risk_score
  else match confidence_score with
       | Some c => number_or c 0
       | None => 0
       end.

(** The React key of a row or marker:
    [`${transaction.transaction_id}-${index}`]. *)
Definition transaction_key (transaction : Transaction.t) (index : nat)
  : string :=
  (Transaction.transaction_id transaction ++ "-" ++ pretty index)%string.

Definition transaction_keys (transactions : list Transaction.t) : list string :=
  imap (fun index transaction => transaction_key transaction index) transactions.

Definition validTransactions (transactions : list Transaction.t)
  : result (list Transaction.t) :=
  filter_array has_coordinates transactions.

(** Whether the callback keeps a transaction (it never throws, see
    [has_coordinates_total]). *)
Definition located (t : Transaction.t) : bool :=
  match has_coordinates t with
  | Ok keep => keep
  | Throw _ => false
  end.

(** The specification's reading of a valid location: an object whose
    [lat] and [lng] are both numbers other than [NaN]. *)
Definition numeric_coordinates (t : Transaction.t) : Prop :=
  ∃ props la ln,
    Transaction.location t = Object props
    ∧ props !! "lat" = Some (Number la)
    ∧ props !! "lng" = Some (Number ln)
    ∧ is_nan la = false ∧ is_nan ln = false.

End TransactionMap.

(** ** Dashboard *)

Module Dashboard.

Import Js.
Local Open Scope float_scope.

Record FraudStats : Type := {
  total_transactions : float;
  flagged_transactions : float;
  blocked_transactions : float
}.

Record DashboardData : Type := {
  recent_transactions : list Transaction.t;
  fraud_stats : FraudStats
}.

(** The state held by the hooks of the component. *)
Record State : Type := {
  dashboardData : DashboardData;
  alerts : list Alert.t;
  loading : bool
}.

Definition initial : State :=
  {| dashboardData :=
       {| recent_transactions := [];
          fraud_stats := {| total_transactions := 0;
                            flagged_transactions := 0;
                            blocked_transactions := 0 |} |};
     alerts := [];
     loading := true |}.

(** The updater given to [setDashboardData] by the live handler. *)
Definition push_transaction (transaction : Transaction.t)
    (prev : DashboardData) : DashboardData :=
  {| recent_transactions := transaction :: take 49 (recent_transactions prev);
     fraud_stats := fraud_stats prev |}.

(** [transaction.action === 'block' || transaction.risk_score > 0.7] *)
Definition high_risk (transaction : Transaction.t) : bool :=
  String.eqb (Transaction.action transaction) "block"
  || (0.7 <? Transaction.risk_score transaction).

(** The alert object built by the handler; [now] and [iso] are the
    two readings of the clock. *)
Definition make_alert (now : Z) (iso : string)
    (transaction : Transaction.t) : Alert.t :=
  {| Alert.id := now;
     Alert.timestamp := iso;
     Alert.message :=
       [ Text (toUpperCase (Transaction.action transaction));
         Text ": Transaction ";
         Text (Transaction.transaction_id transaction);
         Text " - $";
         NumberToString (Transaction.amount transaction);
         Text " - Risk Score: ";
         toFixed1 (Transaction.risk_score transaction * 100);
         Text "%" ];
     Alert.type := Transaction.action transaction;
     Alert.transaction_id := Transaction.transaction_id transaction |}.

(** The updater given to [setAlerts] by the live handler. *)
Definition push_alert (alert : Alert.t) (prev : list Alert.t) : list Alert.t :=
  alert :: take 19 prev.

(** The handler of ['transaction_update']. *)
Definition on_transaction_update (now : Z) (iso : string)
    (transaction : Transaction.t) (s : State) : State :=
  let s1 := {| dashboardData := push_transaction transaction (dashboardData s);
               alerts := alerts s;
               loading := loading s |} in
  if high_risk transaction then
    let alert := make_alert now iso transaction in
    {| dashboardData := dashboardData s1;
       alerts := push_alert alert (alerts s1);
       loading := loading s1 |}
  else s1.

(** The alert objects the handler constructs for one event. *)
Definition created_alerts (now : Z) (iso : string)
    (transaction : Transaction.t) : list Alert.t :=
  if high_risk transaction then [make_alert now iso transaction] else [].

(** [onClearAlert]: [prev.filter(alert => alert.id !== id)]. *)
Definition onClearAlert (id : Z) (prev : list Alert.t) : list Alert.t :=
  filter (fun alert => Alert.id alert ≠ id) prev.

(** What [calculateFraudRate] returns: the number [0] or the string
    made by [toFixed]. *)
Inductive rate : Type :=
| RateNumber (x : float)
| RateString (s : fragment).

Definition calculateFraudRate (d : DashboardData) : rate :=
  let stats := fraud_stats d in
  if total_transactions stats =? 0 then RateNumber 0
  else RateString
         (toFixed1 ((flagged_transactions stats + blocked_transactions stats)
                    / total_transactions stats * 100)).

(** What happens to the component, one event at a time. *)
Inductive event : Type :=
| TransactionUpdate (now : Z) (iso : string) (transaction : Transaction.t)
| LoadStarted                          (* setLoading(true) *)
| LoadResolved (data : DashboardData)  (* setDashboardData(data); finally *)
| LoadRejected                         (* catch; finally *)
| ClearAlert (id : Z).

Definition step (s : State) (e : event) : State :=
  match e with
  | TransactionUpdate now iso transaction =>
      on_transaction_update now iso transaction s
  | LoadStarted =>
      {| dashboardData := dashboardData s; alerts := alerts s; loading := true |}
  | LoadResolved data =>
      {| dashboardData := data; alerts := alerts s; loading := false |}
  | LoadRejected =>
      {| dashboardData := dashboardData s; alerts := alerts s; loading := false |}
  | ClearAlert id =>
      {| dashboardData := dashboardData s;
         alerts := onClearAlert id (alerts s);
         loading := loading s |}
  end.

Definition run (s : State) (events : list event) : State :=
  foldl step s events.

Definition history (s : State) : list Transaction.t :=
  recent_transactions (dashboardData s).

(** A live event with the two clock readings of its handling. *)
Definition arrival : Type := Z * string * Transaction.t.

Definition live (x : arrival) : event :=
  let '(now, iso, transaction) := x in TransactionUpdate now iso transaction.

Definition alert_of (x : arrival) : Alert.t :=
  let '(now, iso, transaction) := x in make_alert now iso transaction.

Definition triggers (x : arrival) : Prop := high_risk x.2 = true.

(** A refresh whose payload respects the cap of the history. *)
Definition refresh_within_cap (e : event) : Prop :=
  match e with
  | LoadResolved data => length (recent_transactions data) ≤ 50
  | _ => True
  end.


(** The alert panel of the rendered dashboard: the spinner replaces
    everything while loading, and the panel is mounted only for a
    non-empty list. *)
Definition alert_panel (s : State) : option AlertPanel.panel :=
  if loading s then None
  else if (0 <? length (alerts s))%nat then AlertPanel.render (alerts s)
  else None.

#[global] Instance triggers_dec (x : arrival) : Decision (triggers x).
Proof. unfold triggers. apply _. Defined.

(** The events that can change the alert list. *)
Definition touches_alerts (e : event) : bool :=
  match e with
  | TransactionUpdate _ _ _ | ClearAlert _ => true
  | _ => false
  end.

(** The events that can change the snapshot. *)
Definition touches_data (e : event) : bool :=
  match e with
  | TransactionUpdate _ _ _ | LoadResolved _ => true
  | _ => false
  end.

Definition is_refresh (e : event) : bool :=
  match e with
  | LoadResolved _ => true
  | _ => false
  end.

(** The clock readings of the live events of a history, oldest first. *)
Definition readings (events : list event) : list Z :=
  omap (fun e => match e with
                 | TransactionUpdate now _ _ => Some now
                 | _ => None
                 end) events.

End Dashboard.


(** ** Sample data *)

Module Samples.

Import Dashboard.

Definition place (lat lng : Js.value) : Js.value :=
  Js.Object {[ "lat" := lat; "lng" := lng; "city" := Js.Str "Nairobi" ]}.

Definition tx (id : string) (risk : float) (action : string)
    (location : Js.value) : Transaction.t :=
  {| Transaction.transaction_id := id;
     Transaction.timestamp := "2024-01-01T00:00:00.000Z";
     Transaction.amount := 250;
     Transaction.location := location;
     Transaction.risk_score := risk;
     Transaction.action := action |}.

Definition nairobi : Js.value :=
  place (Js.Number (-1.2921)) (Js.Number 36.8219).

Definition blocked : Transaction.t := tx "T-1" 0.2 "block" nairobi.
Definition risky_approved : Transaction.t := tx "T-2" 0.9 "approve" nairobi.
Definition routine : Transaction.t := tx "T-3" 0.1 "approve" nairobi.
Definition at_threshold : Transaction.t := tx "T-4" 0.7 "flag" nairobi.
Definition unlocated : Transaction.t := tx "T-5" 0.1 "approve" Js.Undefined.
Definition nan_lat : Transaction.t :=
  tx "T-6" 0.1 "approve" (place (Js.Number nan) (Js.Number 36.8219)).
Definition text_lng : Transaction.t :=
  tx "T-7" 0.1 "approve" (place (Js.Number 1) (Js.Str "36.8")).
Definition no_lng : Transaction.t :=
  tx "T-8" 0.1 "approve" (Js.Object {[ "lat" := Js.Number 1 ]}).

Definition stats (total flagged blocked : float) : FraudStats :=
  {| total_transactions := total;
     flagged_transactions := flagged;
     blocked_transactions := blocked |}.

(** A refresh payload of [n] records. *)
Definition payload (n : nat) : DashboardData :=
  {| recent_transactions := replicate n routine;
     fraud_stats := stats 100 10 5 |}.

(** 25 blocked transactions handled at the clock readings 1 to 25. *)
Definition burst : list arrival :=
  (fun n => (Z.of_nat n, "2024-01-01T00:00:00.000Z", blocked)) <$> seq 1 25.

Definition alert (id : Z) : Alert.t := make_alert id "" blocked.

Definition hotspot (score : option float) : HeatMap.Hotspot :=
  {| HeatMap._id := {| HeatMap.lat := Some 40.7128%float;
                       HeatMap.lng := Some (-74.006)%float;
                       HeatMap.city := "New York";
                       HeatMap.country := "US" |};
     HeatMap.fraud_count := 3;
     HeatMap.avg_risk_score := score |}.

End Samples.

(** * Properties *)

(** ** Sanity checks of the embedding *)

Example toFixed1_integer : Js.toFixed1 15 = Js.Text "15.0".
Proof. vm_compute. reflexivity. Qed.

Example toFixed1_negative_small : Js.toFixed1 (-0.04) = Js.Text "-0.0".
Proof. vm_compute. reflexivity. Qed.

Example toFixed1_tie : Js.toFixed1 0.25 = Js.Text "0.3".
Proof. vm_compute. reflexivity. Qed.

Example toFixed1_third : Js.toFixed1 (1 / 3 * 100) = Js.Text "33.3".
Proof. vm_compute. reflexivity. Qed.

Example toFixed1_nan : Js.toFixed1 nan = Js.Text "NaN".
Proof. vm_compute. reflexivity. Qed.

Example toFixed1_large : Js.toFixed1 1e21 = Js.NumberToString 1e21.
Proof. vm_compute. reflexivity. Qed.

Example Math_min_zeros : Js.Math_min (-0) 0 = (-0)%float.
Proof. vm_compute. reflexivity. Qed.

Example Math_max_nan : Js.Math_max nan 10 = nan.
Proof. vm_compute. reflexivity. Qed.

Example message_of_blocked :
  Alert.message (Dashboard.make_alert 1 "" Samples.blocked)
  = [ Js.Text "BLOCK"; Js.Text ": Transaction "; Js.Text "T-1"; Js.Text " - $";
      Js.NumberToString 250; Js.Text " - Risk Score: "; Js.Text "20.0";
      Js.Text "%" ].
Proof. vm_compute. reflexivity. Qed.

Example at_threshold_is_not_high_risk :
  Dashboard.high_risk Samples.at_threshold = false.
Proof. vm_compute. reflexivity. Qed.

Example map_keeps_located_only :
  TransactionMap.validTransactions
    [Samples.unlocated; Samples.blocked; Samples.nan_lat; Samples.text_lng;
     Samples.no_lng; Samples.routine]
  = Js.Ok [Samples.blocked; Samples.routine].
Proof. vm_compute. reflexivity. Qed.

Import Dashboard.

(** ** Bounded lists *)

Section Bounded.

Context {A : Type}.
Implicit Types (l k : list A) (a : A).

Lemma length_push_take a l n : length (a :: take n l) ≤ S n.
Proof. cbn. rewrite length_take. lia. Qed.

(** Truncating before the next push loses nothing that the final
    truncation would keep. *)
Lemma take_app_push_take l a k n m :
  m ≤ S n → take m (l ++ a :: take n k) = take m (l ++ a :: k).
Proof.
  revert m. induction l as [|x l IH]; intros [|m] Hm; cbn; try reflexivity.
  - rewrite take_take. f_equal. f_equal. lia.
  - f_equal. apply IH. lia.
Qed.

End Bounded.

(** ** The live handler, field by field *)

Lemma history_on_transaction_update now iso t s :
  history (on_transaction_update now iso t s) = t :: take 49 (history s).
Proof.
  unfold on_transaction_update, history. destruct (high_risk t); reflexivity.
Qed.

Lemma alerts_on_transaction_update now iso t s :
  alerts (on_transaction_update now iso t s)
  = foldr push_alert (alerts s) (created_alerts now iso t).
Proof.
  unfold on_transaction_update, created_alerts.
  destruct (high_risk t); reflexivity.
Qed.

Lemma high_risk_spec t :
  high_risk t = true ↔
  Transaction.action t = "block" ∨ (0.7 <? Transaction.risk_score t)%float = true.
Proof.
  unfold high_risk. rewrite orb_true_iff, String.eqb_eq. reflexivity.
Qed.

(** C1: the live handler creates an alert if and only if the event's
    action is ['block'] or its risk score exceeds 0.7; then it creates
    exactly one, which is pushed on the alert list, and otherwise it
    creates none and leaves the alert list as it was. *)
Theorem alert_created_iff_policy (now : Z) (iso : string)
    (t : Transaction.t) (s : State) :
  let policy := Transaction.action t = "block"
                ∨ (0.7 <? Transaction.risk_score t)%float = true in
  let s' := on_transaction_update now iso t s in
  ((∃ a, a ∈ created_alerts now iso t) ↔ policy)
  ∧ (policy →
       created_alerts now iso t = [make_alert now iso t]
       ∧ alerts s' = make_alert now iso t :: take 19 (alerts s))
  ∧ (¬ policy → created_alerts now iso t = [] ∧ alerts s' = alerts s).
Proof.
  cbv zeta. rewrite alerts_on_transaction_update, <- high_risk_spec.
  unfold created_alerts. destruct (high_risk t); cbn.
  - split; [|split]; [ | auto | intros []; reflexivity ].
    split; [auto|]. intros _. eexists. apply list_elem_of_here.
  - split; [|split]; [ | discriminate | auto ].
    split; [|discriminate]. intros [a Ha]. inversion Ha.
Qed.


(** ** Runs *)

Lemma run_cons s e events : run s (e :: events) = run (step s e) events.
Proof. reflexivity. Qed.

Lemma run_snoc s events e : run s (events ++ [e]) = step (run s events) e.
Proof. unfold run. now rewrite foldl_snoc. Qed.

Lemma history_step_live s now iso t :
  history (step s (TransactionUpdate now iso t)) = t :: take 49 (history s).
Proof. apply history_on_transaction_update. Qed.

Lemma history_step_bound s e :
  refresh_within_cap e → length (history s) ≤ 50 →
  length (history (step s e)) ≤ 50.
Proof.
  destruct e as [now iso t| |data| |x]; cbn [step refresh_within_cap]; intros He Hs;
    try assumption.
  rewrite history_on_transaction_update. apply length_push_take.
Qed.

Lemma history_run_bound events : ∀ s,
  Forall refresh_within_cap events → length (history s) ≤ 50 →
  length (history (run s events)) ≤ 50.
Proof.
  induction events as [|e events IH]; intros s Hall Hs; [assumption|].
  inversion Hall; subst. rewrite run_cons.
  apply IH; [assumption|]. now apply history_step_bound.
Qed.

Lemma alerts_step_bound s e :
  length (alerts s) ≤ 20 → length (alerts (step s e)) ≤ 20.
Proof.
  destruct e as [now iso t| |data| |x]; cbn [step alerts]; intros Hs; try assumption.
  - rewrite alerts_on_transaction_update. unfold created_alerts.
    destruct (high_risk t); cbn [foldr]; [apply length_push_take | assumption].
  - unfold onClearAlert. etrans; [apply length_filter | assumption].
Qed.

Lemma alerts_run_bound events : ∀ s,
  length (alerts s) ≤ 20 → length (alerts (run s events)) ≤ 20.
Proof.
  induction events as [|e events IH]; intros s Hs; [assumption|].
  rewrite run_cons. apply IH. now apply alerts_step_bound.
Qed.

(** A burst of alert-triggering events leaves the 20 most recent
    alerts, newest first, in front of what was there. *)
Lemma alerts_run_triggering (xs : list arrival) : ∀ s,
  Forall triggers xs → length (alerts s) ≤ 20 →
  alerts (run s (live <$> xs)) = take 20 (reverse (alert_of <$> xs) ++ alerts s).
Proof.
  induction xs as [|[[now iso] t] xs IH]; intros s Hall Hs.
  - cbn. symmetry. now apply take_ge.
  - inversion Hall as [|? ? Hx Hxs]; subst. rewrite fmap_cons, run_cons.
    rewrite IH by (assumption || now apply alerts_step_bound).
    cbn [live step]. rewrite alerts_on_transaction_update. unfold created_alerts.
    unfold triggers in Hx. cbn in Hx. rewrite Hx. cbn [foldr].
    rewrite fmap_cons, reverse_cons, <- app_assoc. cbn [app alert_of].
    unfold push_alert. apply take_app_push_take. lia.
Qed.

(** ** Transaction history *)

(** C2 (as the code has it): a live event puts the new record in front
    of the first 49 previous ones, so the history holds at most 50
    records after it whatever came before; a full refresh installs the
    backend's list as it is, so the refreshed history is within the cap
    exactly when that list is; and over any run whose refresh payloads
    are within the cap the history never exceeds 50. *)
Theorem history_cap_by_prepend :
  (∀ now iso t (s : State),
     history (step s (TransactionUpdate now iso t)) = t :: take 49 (history s)
     ∧ length (history (step s (TransactionUpdate now iso t))) ≤ 50)
  ∧ (∀ data (s : State),
       history (step s (LoadResolved data)) = recent_transactions data)
  ∧ (∀ (events : list event) (s : State),
       Forall refresh_within_cap events → length (history s) ≤ 50 →
       length (history (run s events)) ≤ 50).
Proof.
  split; [|split].
  - intros now iso t s. rewrite history_step_live.
    split; [reflexivity | apply length_push_take].
  - reflexivity.
  - intros events s Hall Hs. now apply history_run_bound.
Qed.

Lemma history_cap_by_prepend_witness :
  length (history (run initial
            [LoadResolved (Samples.payload 50);
             TransactionUpdate 1 "" Samples.routine])) ≤ 50
  ∧ length (history (run initial
              [LoadResolved (Samples.payload 51);
               TransactionUpdate 1 "" Samples.routine])) ≤ 50.
Proof.
  destruct history_cap_by_prepend as (Hlive & _ & Hrun). split.
  - apply Hrun.
    + repeat constructor.
    + cbn. lia.
  - change (length (history (step (run initial [LoadResolved (Samples.payload 51)])
                                  (TransactionUpdate 1 "" Samples.routine))) ≤ 50).
    apply Hlive.
Defined.

(** C2, as stated, fails on a refresh: a payload of 51 records is
    installed whole. *)
Lemma refresh_exceeds_cap :
  length (history (run initial [LoadResolved (Samples.payload 51)])) = 51
  ∧ ¬ length (history (run initial [LoadResolved (Samples.payload 51)])) ≤ 50.
Proof.
  assert (E : length (history (run initial [LoadResolved (Samples.payload 51)])) = 51)
    by reflexivity.
  split; [exact E|]. rewrite E. lia.
Qed.

(** ** Alert list *)

(** C3: from the empty alert list, whatever the events (live events,
    refreshes, dismissals), the alert list never holds more than 20
    entries; and after 25 alert-triggering live events it is the 20
    most recent alerts, newest first: the 5 oldest are dropped, and
    when the 25 alerts are pairwise distinct none of those 5 occurs in
    the list. *)
Theorem alerts_cap_and_retention :
  (∀ events : list event, length (alerts (run initial events)) ≤ 20)
  ∧ (∀ xs : list arrival,
       length xs = 25 → Forall triggers xs →
       let created := alert_of <$> xs in
       let kept := alerts (run initial (live <$> xs)) in
       kept = reverse (drop 5 created)
       ∧ length kept = 20
       ∧ (NoDup created → ∀ a, a ∈ take 5 created → a ∉ kept)).
Proof.
  split; [intros events; apply alerts_run_bound; cbn; lia|].
  intros xs Hlen Hall created kept.
  assert (Hkept : kept = reverse (drop 5 created)).
  { subst kept created. rewrite alerts_run_triggering by (assumption || cbn; lia).
    cbn [initial alerts]. rewrite app_nil_r, take_reverse, length_fmap, Hlen.
    reflexivity. }
  split; [assumption|]. split.
  - rewrite Hkept, length_reverse, length_drop. subst created.
    rewrite length_fmap. lia.
  - intros Hnodup a Ha. rewrite Hkept, elem_of_reverse.
    rewrite <- (take_drop 5 created) in Hnodup.
    apply NoDup_app in Hnodup as (_ & Hdisj & _). now apply Hdisj.
Qed.

Lemma alerts_cap_and_retention_witness :
  let created := alert_of <$> Samples.burst in
  let kept := alerts (run initial (live <$> Samples.burst)) in
  length (alerts (run initial ((live <$> Samples.burst) ++ [ClearAlert 7]))) ≤ 20
  ∧ kept = reverse (drop 5 created)
  ∧ length kept = 20
  ∧ ∀ a, a ∈ take 5 created → a ∉ kept.
Proof.
  assert (Hlen : length Samples.burst = 25) by reflexivity.
  assert (Hall : Forall triggers Samples.burst).
  { apply Forall_fmap, Forall_forall. intros n _. reflexivity. }
  assert (Hdistinct : NoDup (alert_of <$> Samples.burst)).
  { apply (NoDup_fmap_1 Alert.id). apply (bool_decide_unpack _).
    vm_compute. exact I. }
  destruct alerts_cap_and_retention as (Hcap & Hburst).
  destruct (Hburst Samples.burst Hlen Hall) as (Hkept & Hsize & Habsent).
  split; [apply Hcap|]. split; [exact Hkept|]. split; [exact Hsize|].
  exact (Habsent Hdistinct).
Defined.


(** ** Dismissal *)

Lemma onClearAlert_absent X (k : list Alert.t) :
  X ∉ Alert.id <$> k → onClearAlert X k = k.
Proof.
  unfold onClearAlert. induction k as [|a k IH]; intros HX; [reflexivity|].
  rewrite fmap_cons, not_elem_of_cons in HX. destruct HX as [Ha Hk].
  rewrite filter_cons_True by congruence. now rewrite IH.
Qed.

Lemma onClearAlert_split X (l1 l2 : list Alert.t) a :
  Alert.id a = X →
  onClearAlert X (l1 ++ a :: l2) = onClearAlert X l1 ++ onClearAlert X l2.
Proof.
  intros Ha. unfold onClearAlert. rewrite filter_app. f_equal.
  apply filter_cons_False. intros Hne. now apply Hne.
Qed.



(** ** Identifiers *)

(** C10: an alert's identifier is the clock reading of its creation.
    Two alert-triggering events handled at the same reading [now]
    yield two entries with the identifier [now], and one dismissal of
    [now] removes both (with any older entry of that identifier). *)
Theorem same_millisecond_dismissed_together (now : Z) (iso1 iso2 : string)
    (t1 t2 : Transaction.t) (s : State) :
  high_risk t1 = true → high_risk t2 = true →
  let a1 := make_alert now iso1 t1 in
  let a2 := make_alert now iso2 t2 in
  let s2 := run s [TransactionUpdate now iso1 t1; TransactionUpdate now iso2 t2] in
  let s3 := step s2 (ClearAlert now) in
  Alert.id a1 = now ∧ Alert.id a2 = now
  ∧ alerts s2 = a2 :: a1 :: take 18 (alerts s)
  ∧ alerts s3 = onClearAlert now (take 18 (alerts s))
  ∧ (a1 ∉ alerts s3) ∧ (a2 ∉ alerts s3)
  ∧ length (alerts s3) + 2 ≤ length (alerts s2).
Proof.
  intros H1 H2 a1 a2 s2 s3.
  assert (E2 : alerts s2 = a2 :: a1 :: take 18 (alerts s)).
  { subst s2. cbn [run foldl step].
    rewrite !alerts_on_transaction_update. unfold created_alerts.
    rewrite H1, H2. cbn [foldr]. unfold push_alert.
    cbn [take]. now rewrite take_take. }
  assert (E3 : alerts s3 = onClearAlert now (take 18 (alerts s))).
  { subst s3. cbn [step alerts]. rewrite E2. unfold onClearAlert.
    rewrite !filter_cons_False by (intros Hne; now apply Hne). reflexivity. }
  assert (Hgone : ∀ a, Alert.id a = now → a ∉ alerts s3).
  { intros a Ha Hin. rewrite E3 in Hin.
    apply list_elem_of_filter in Hin as [Hne _]. now apply Hne. }
  split; [reflexivity|]. split; [reflexivity|]. split; [assumption|].
  split; [assumption|]. split; [now apply Hgone|]. split; [now apply Hgone|].
  rewrite E3, E2. cbn [length]. unfold onClearAlert.
  pose proof (length_filter (fun alert => Alert.id alert ≠ now) (take 18 (alerts s))).
  lia.
Qed.

Lemma same_millisecond_dismissed_together_witness :
  let s2 := run initial [TransactionUpdate 1000 "a" Samples.blocked;
                         TransactionUpdate 1000 "b" Samples.risky_approved] in
  Alert.id <$> alerts s2 = [1000%Z; 1000%Z]
  ∧ alerts (step s2 (ClearAlert 1000)) = [].
Proof.
  destruct (same_millisecond_dismissed_together 1000 "a" "b"
              Samples.blocked Samples.risky_approved initial)
    as (_ & _ & Hboth & Hcleared & _).
  - vm_compute. reflexivity.
  - vm_compute. reflexivity.
  - cbv zeta. split.
    + rewrite Hboth. reflexivity.
    + rewrite Hcleared. reflexivity.
Defined.


(** ** Classification of alerts *)

Lemma alerts_provenance (events : list event) : ∀ a,
  a ∈ alerts (run initial events) →
  ∃ now iso t, TransactionUpdate now iso t ∈ events
               ∧ high_risk t = true ∧ a = make_alert now iso t.
Proof.
  induction events as [|e events IH] using rev_ind; intros a Ha.
  - inversion Ha.
  - rewrite run_snoc in Ha.
    assert (Hold : a ∈ alerts (run initial events) →
                   ∃ now iso t, TransactionUpdate now iso t ∈ events ++ [e]
                                ∧ high_risk t = true ∧ a = make_alert now iso t).
    { intros (now & iso & t & Hin & Ht & Hmk)%IH. exists now, iso, t.
      rewrite elem_of_app. auto. }
    destruct e as [now iso t| |data| |x]; cbn [step alerts] in Ha; auto.
    + rewrite alerts_on_transaction_update in Ha. unfold created_alerts in Ha.
      destruct (high_risk t) eqn:Ht; cbn [foldr] in Ha; auto.
      unfold push_alert in Ha. apply elem_of_cons in Ha as [->|Ha].
      * exists now, iso, t. rewrite elem_of_app, list_elem_of_singleton. auto.
      * apply Hold. now apply (subseteq_take 19).
    + apply Hold. unfold onClearAlert in Ha.
      now apply list_elem_of_filter in Ha as [_ Ha].
Qed.

Lemma getAlertIcon_cases (type : string) :
  (AlertPanel.getAlertIcon type = AlertPanel.NoEntry ↔ type = "block")
  ∧ (AlertPanel.getAlertIcon type = AlertPanel.Warning ↔ type = "flag")
  ∧ (AlertPanel.getAlertIcon type = AlertPanel.Bell
     ↔ type ≠ "block" ∧ type ≠ "flag").
Proof.
  unfold AlertPanel.getAlertIcon.
  destruct (String.eqb_spec type "block") as [->|Hb]; cbn.
  - repeat split; try discriminate; try reflexivity; intros; intuition congruence.
  - destruct (String.eqb_spec type "flag") as [->|Hf].
    + repeat split; try discriminate; try reflexivity; intros; intuition congruence.
    + repeat split; try discriminate; try reflexivity; intros; intuition congruence.
Qed.

(** C7 (as the code has it): the classification of every alert in the
    list is, verbatim, the action of the live event it was created
    for, whatever that action is; the panel shows ['block'] and
    ['flag'] with icons of their own and every other classification,
    ['approve'] included, with the default one. *)
Theorem alert_type_is_event_action (events : list event) (a : Alert.t) :
  a ∈ alerts (run initial events) →
  (∃ now iso t, TransactionUpdate now iso t ∈ events
                ∧ high_risk t = true
                ∧ a = make_alert now iso t
                ∧ Alert.type a = Transaction.action t)
  ∧ (AlertPanel.getAlertIcon (Alert.type a) = AlertPanel.NoEntry
     ↔ Alert.type a = "block")
  ∧ (AlertPanel.getAlertIcon (Alert.type a) = AlertPanel.Warning
     ↔ Alert.type a = "flag")
  ∧ (AlertPanel.getAlertIcon (Alert.type a) = AlertPanel.Bell
     ↔ Alert.type a ≠ "block" ∧ Alert.type a ≠ "flag").
Proof.
  intros (now & iso & t & Hin & Ht & ->)%alerts_provenance.
  split; [|apply getAlertIcon_cases].
  exists now, iso, t. auto.
Qed.

Lemma alert_type_is_event_action_witness :
  Alert.type (make_alert 7 "" Samples.risky_approved) = "approve"
  ∧ AlertPanel.getAlertIcon (Alert.type (make_alert 7 "" Samples.risky_approved))
    = AlertPanel.Bell.
Proof.
  destruct (alert_type_is_event_action
              [TransactionUpdate 7 "" Samples.risky_approved]
              (make_alert 7 "" Samples.risky_approved))
    as (_ & _ & _ & Hbell).
  - vm_compute. apply list_elem_of_here.
  - split; [reflexivity|]. apply Hbell. split; discriminate.
Defined.

(** C7, as stated, fails for an approved transaction of high risk: its
    alert is classified ['approve'], which is none of block, flag and
    other. *)
Lemma approve_alert_keeps_action :
  let a := make_alert 7 "" Samples.risky_approved in
  alerts (run initial [TransactionUpdate 7 "" Samples.risky_approved]) = [a]
  ∧ Alert.type a = "approve"
  ∧ Alert.type a ∉ ["block"; "flag"; "other"].
Proof.
  cbv zeta. split; [vm_compute; reflexivity|]. split; [reflexivity|].
  cbn. rewrite !not_elem_of_cons, elem_of_nil.
  repeat split; try discriminate. tauto.
Qed.

(** ** Heat map *)

Lemma intensity_cases (point : HeatMap.Hotspot) :
  HeatMap.intensity point
  = match HeatMap.avg_risk_score point with
    | Some x => if Js.truthy_number x then Js.Math_min x 1 else 0.5%float
    | None => 0.5%float
    end.
Proof.
  unfold HeatMap.intensity, HeatMap.heatPoint, HeatMap.risk_or_default. cbn [snd].
  destruct (HeatMap.avg_risk_score point) as [x|]; [|reflexivity].
  unfold Js.number_or. destruct (Js.truthy_number x); reflexivity.
Qed.

Lemma heatLayer_elem (data : list HeatMap.Hotspot) (c : HeatMap.CircleMarker) :
  c ∈ HeatMap.heatLayer data ↔
  ∃ point la ln,
    point ∈ data
    ∧ HeatMap.lat (HeatMap._id point) = Some la
    ∧ HeatMap.lng (HeatMap._id point) = Some ln
    ∧ is_nan la = false ∧ is_nan ln = false
    ∧ c = HeatMap.circle (la, ln, HeatMap.intensity point).
Proof.
  unfold HeatMap.heatLayer, HeatMap.heatPoints.
  rewrite list_elem_of_fmap. split.
  - intros (p & -> & Hp). apply list_elem_of_omap in Hp as (q & Hq & Hplot).
    apply list_elem_of_fmap in Hq as (point & -> & Hpoint).
    unfold HeatMap.plottable, HeatMap.heatPoint in Hplot.
    destruct (HeatMap.lat (HeatMap._id point)) as [la|] eqn:Ela; [|discriminate].
    destruct (HeatMap.lng (HeatMap._id point)) as [ln|] eqn:Eln; [|discriminate].
    destruct (is_nan la) eqn:Na; [discriminate|].
    destruct (is_nan ln) eqn:Nn; [discriminate|]. cbn in Hplot.
    injection Hplot as <-. exists point, la, ln. auto 10.
  - intros (point & la & ln & Hpoint & Ela & Eln & Na & Nn & ->).
    eexists. split; [reflexivity|]. apply list_elem_of_omap.
    exists (HeatMap.heatPoint point). split; [now apply list_elem_of_fmap_2|].
    unfold HeatMap.plottable, HeatMap.heatPoint. now rewrite Ela, Eln, Na, Nn.
Qed.

(** What [HeatMapLayer] computes: the intensity of a hotspot is
    [min(avg_risk_score, 1.0)] when its average risk score is a number
    other than [0] and [NaN]; the fallback [0.5], written for a missing
    score, is also taken for every other falsy score (see
    [zero_score_intensity] for the score [0]); every circle drawn has
    the radius [max(intensity * 50, 10)] and the ladder colour of the
    intensity of its hotspot, and every hotspot with two numeric
    coordinates is drawn. *)
Theorem heat_intensity_and_radius (data : list HeatMap.Hotspot)
    (point : HeatMap.Hotspot) :
  (∀ x, HeatMap.avg_risk_score point = Some x → Js.truthy_number x = true →
        HeatMap.intensity point = Js.Math_min x 1)
  ∧ (∀ x, HeatMap.avg_risk_score point = Some x → Js.truthy_number x = false →
          HeatMap.intensity point = 0.5%float)
  ∧ (HeatMap.avg_risk_score point = None → HeatMap.intensity point = 0.5%float)
  ∧ (∀ la ln, point ∈ data →
              HeatMap.lat (HeatMap._id point) = Some la →
              HeatMap.lng (HeatMap._id point) = Some ln →
              is_nan la = false → is_nan ln = false →
       {| HeatMap.center := (la, ln);
          HeatMap.radius := Js.Math_max (HeatMap.intensity point * 50) 10;
          HeatMap.fillColor := HeatMap.getHeatColor (HeatMap.intensity point);
          HeatMap.color := HeatMap.getHeatColor (HeatMap.intensity point) |}
       ∈ HeatMap.heatLayer data)
  ∧ (∀ c, c ∈ HeatMap.heatLayer data →
       ∃ p, p ∈ data
            ∧ HeatMap.radius c = Js.Math_max (HeatMap.intensity p * 50) 10
            ∧ HeatMap.fillColor c = HeatMap.getHeatColor (HeatMap.intensity p)).
Proof.
  pose proof (intensity_cases point) as Hi.
  split; [|split; [|split; [|split]]].
  - intros x Hx Ht. now rewrite Hi, Hx, Ht.
  - intros x Hx Ht. now rewrite Hi, Hx, Ht.
  - intros Hx. now rewrite Hi, Hx.
  - intros la ln Hpoint Ela Eln Na Nn. apply heatLayer_elem.
    exists point, la, ln. auto 10.
  - intros c (p & la & ln & Hp & _ & _ & _ & _ & ->)%heatLayer_elem.
    exists p. auto.
Qed.

Lemma heat_intensity_and_radius_witness :
  HeatMap.intensity (Samples.hotspot (Some 0.9%float)) = 0.9%float
  ∧ HeatMap.intensity (Samples.hotspot (Some 1.7%float)) = 1%float
  ∧ HeatMap.intensity (Samples.hotspot (Some nan)) = 0.5%float
  ∧ HeatMap.intensity (Samples.hotspot None) = 0.5%float
  ∧ HeatMap.radius <$> HeatMap.heatLayer [Samples.hotspot (Some 0.9%float)]
    = [45%float].
Proof.
  split; [|split; [|split; [|split]]].
  - destruct (heat_intensity_and_radius [] (Samples.hotspot (Some 0.9%float)))
      as (Hmin & _).
    rewrite (Hmin 0.9%float); reflexivity.
  - destruct (heat_intensity_and_radius [] (Samples.hotspot (Some 1.7%float)))
      as (Hmin & _).
    rewrite (Hmin 1.7%float); reflexivity.
  - destruct (heat_intensity_and_radius [] (Samples.hotspot (Some nan)))
      as (_ & Hfalsy & _).
    apply (Hfalsy nan); reflexivity.
  - destruct (heat_intensity_and_radius [] (Samples.hotspot None))
      as (_ & _ & Hnone & _).
    apply Hnone. reflexivity.
  - vm_compute. reflexivity.
Defined.

Lemma float_neq (x y : float) :
  is_nan x = false → (x =? y)%float = false → x ≠ y.
Proof.
  intros Hnan Hne ->. unfold is_nan in Hnan. rewrite Hne in Hnan. discriminate.
Qed.

(** C4: the code misses the claim at an average risk score of [0].
    The claim gives such a hotspot the intensity [min(0, 1.0) = 0];
    the code takes [0] for a missing score, because [0 || 0.5] is
    [0.5], and draws the hotspot with intensity [0.5]: a dark orange
    circle of radius 25, the colour the legend gives to 40-60%, where
    intensity [0] would give the yellow of 0-20% and the radius 10.
    The popup of the same hotspot reads the score itself and shows the
    threat level "Low". *)
Lemma zero_score_intensity :
  HeatMap.intensity (Samples.hotspot (Some 0%float)) = 0.5%float
  ∧ Js.Math_min 0 1 = 0%float
  ∧ HeatMap.intensity (Samples.hotspot (Some 0%float)) ≠ Js.Math_min 0 1
  ∧ HeatMap.heatLayer [Samples.hotspot (Some 0%float)]
    = [ {| HeatMap.center := (40.7128%float, (-74.006)%float);
           HeatMap.radius := 25%float;
           HeatMap.fillColor := "#FF8C00";
           HeatMap.color := "#FF8C00" |} ]
  ∧ HeatMap.getHeatColor (Js.Math_min 0 1) = "#FFFF00"
  ∧ Js.Math_max (Js.Math_min 0 1 * 50) 10 = 10%float
  ∧ HeatMap.popup_threat (Samples.hotspot (Some 0%float)) = "🟢 Low".
Proof.
  split; [reflexivity|]. split; [reflexivity|].
  split; [apply float_neq; reflexivity|].
  repeat split; vm_compute; reflexivity.
Qed.


(** ** Fraud rate *)

(** [toFixed(1)] rounds to the nearest tenth, upwards on a tie. *)
Lemma nearest_tenths_exact (m : positive) (e : Z) :
  (0 ≤ e)%Z → Js.nearest_tenths m e = (10 * (Z.pos m * 2 ^ e))%Z.
Proof.
  intros He. unfold Js.nearest_tenths.
  destruct (Z.leb_spec 0 e); lia.
Qed.

Lemma nearest_tenths_rounds (m : positive) (e : Z) :
  (e < 0)%Z →
  let d := (2 ^ (- e))%Z in
  let n := Js.nearest_tenths m e in
  (2 * (n * d) ≤ 20 * Z.pos m + d < 2 * (n * d) + 2 * d)%Z.
Proof.
  intros He d n. subst n. unfold Js.nearest_tenths.
  destruct (Z.leb_spec 0 e); [lia|]. fold d.
  assert (Hd : (0 < 2 * d)%Z) by (subst d; pose proof (Z.pow_pos_nonneg 2 (- e)); lia).
  pose proof (Z.mul_div_le (20 * Z.pos m + d) (2 * d) Hd).
  pose proof (Z.mul_succ_div_gt (20 * Z.pos m + d) (2 * d) Hd).
  lia.
Qed.

(** C5: with a total of zero, [calculateFraudRate] returns the number
    [0]; otherwise it returns [(flagged + blocked) / total * 100] as
    [toFixed(1)] renders it.  It is a total function, so no exception
    is raised.  For 100 transactions, 10 flagged and 5 blocked, the
    rate shown is ["15.0"]. *)
Theorem fraud_rate_guarded (recent : list Transaction.t)
    (total flagged blocked : float) :
  let d := {| recent_transactions := recent;
              fraud_stats := {| total_transactions := total;
                                flagged_transactions := flagged;
                                blocked_transactions := blocked |} |} in
  let example := {| recent_transactions := recent;
                    fraud_stats := {| total_transactions := 100;
                                      flagged_transactions := 10;
                                      blocked_transactions := 5 |} |} in
  ((total =? 0)%float = true → calculateFraudRate d = RateNumber 0)
  ∧ ((total =? 0)%float = false →
       calculateFraudRate d
       = RateString (Js.toFixed1 ((flagged + blocked) / total * 100)%float))
  ∧ calculateFraudRate example = RateString (Js.Text "15.0").
Proof.
  cbv zeta. unfold calculateFraudRate. cbn [fraud_stats total_transactions
    flagged_transactions blocked_transactions].
  split; [|split].
  - now intros ->.
  - now intros ->.
  - vm_compute. reflexivity.
Qed.

(** ** Colour ladders *)

(** C8: for every number, the heat colour is red from 0.8 on
    (boundary included), else orange-red from 0.6 on, else dark orange
    from 0.4 on, else gold from 0.2 on, else yellow; and the risk
    colour is #F44336 from 0.8 on, else #FF9800 from 0.5 on, else
    #FFC107 from 0.3 on, else #4CAF50. *)
Theorem color_ladders (x : float) :
  let reaches (threshold : float) := (threshold <=? x)%float in
  (HeatMap.getHeatColor x = "#FF0000" ↔ reaches 0.8%float = true)
  ∧ (HeatMap.getHeatColor x = "#FF4500"
     ↔ reaches 0.8%float = false ∧ reaches 0.6%float = true)
  ∧ (HeatMap.getHeatColor x = "#FF8C00"
     ↔ reaches 0.8%float = false ∧ reaches 0.6%float = false
       ∧ reaches 0.4%float = true)
  ∧ (HeatMap.getHeatColor x = "#FFD700"
     ↔ reaches 0.8%float = false ∧ reaches 0.6%float = false
       ∧ reaches 0.4%float = false ∧ reaches 0.2%float = true)
  ∧ (HeatMap.getHeatColor x = "#FFFF00"
     ↔ reaches 0.8%float = false ∧ reaches 0.6%float = false
       ∧ reaches 0.4%float = false ∧ reaches 0.2%float = false)
  ∧ (TransactionMap.getRiskColor x = "#F44336" ↔ reaches 0.8%float = true)
  ∧ (TransactionMap.getRiskColor x = "#FF9800"
     ↔ reaches 0.8%float = false ∧ reaches 0.5%float = true)
  ∧ (TransactionMap.getRiskColor x = "#FFC107"
     ↔ reaches 0.8%float = false ∧ reaches 0.5%float = false
       ∧ reaches 0.3%float = true)
  ∧ (TransactionMap.getRiskColor x = "#4CAF50"
     ↔ reaches 0.8%float = false ∧ reaches 0.5%float = false
       ∧ reaches 0.3%float = false)
  ∧ HeatMap.getHeatColor 0.8%float = "#FF0000"
  ∧ HeatMap.getHeatColor 0.85%float = "#FF0000"
  ∧ HeatMap.getHeatColor 0.15%float = "#FFFF00".
Proof.
  cbv zeta. unfold HeatMap.getHeatColor, TransactionMap.getRiskColor.
  destruct (0.8 <=? x)%float, (0.6 <=? x)%float, (0.5 <=? x)%float,
    (0.4 <=? x)%float, (0.3 <=? x)%float, (0.2 <=? x)%float;
    repeat split; intros; try reflexivity; try discriminate;
    repeat match goal with H : _ ∧ _ |- _ => destruct H end; discriminate.
Qed.

(** ** Transaction map *)

Lemma as_number_typeof (v : Js.value) :
  is_Some (TransactionMap.as_number v) ↔ Js.typeof v = "number".
Proof.
  destruct v; cbn; split; intros H; try discriminate; try reflexivity;
    try (destruct H; discriminate); eauto.
Qed.

Lemma has_coordinates_decides (t : Transaction.t) :
  ∃ keep, TransactionMap.has_coordinates t = Js.Ok keep
          ∧ (keep = true ↔ TransactionMap.numeric_coordinates t).
Proof.
  unfold TransactionMap.has_coordinates, TransactionMap.numeric_coordinates.
  destruct (Transaction.location t) as [| |b|x|str|props] eqn:Eloc.
  1-5: exists false; split;
       [ cbn; repeat (match goal with |- context [negb ?c] => destruct c; cbn end);
         reflexivity
       | split; [discriminate | intros (props & la & ln & Hobj & _); discriminate] ].
  cbn [Js.ToBoolean negb Js.Get mbind Js.result_bind].
  destruct (props !! "lat") as [lat|] eqn:Elat; cbn [default];
    [destruct lat as [| |b|la|str|o] | ]; cbn [TransactionMap.as_number].
  1-3,5-7: eexists; (split; [reflexivity|]); (split; [discriminate|]);
       intros (props' & la' & ln' & [= <-] & Hlat & _); congruence.
  destruct (props !! "lng") as [lng|] eqn:Elng; cbn [default];
    [destruct lng as [| |b|ln|str|o] | ]; cbn [TransactionMap.as_number].
  1-3,5-7: eexists; (split; [reflexivity|]); (split; [discriminate|]);
       intros (props' & la' & ln' & [= <-] & _ & Hlng & _); congruence.
  eexists. split; [reflexivity|]. rewrite andb_true_iff, !negb_true_iff. split.
  - intros [Na Nn]. exists props, la, ln. auto.
  - intros (props' & la' & ln' & [= <-] & Hlat & Hlng & Na & Nn).
    rewrite Elat in Hlat. rewrite Elng in Hlng.
    injection Hlat as <-. injection Hlng as <-. auto.
Qed.

Lemma filter_array_total {A : Type} (f : A → Js.result bool) (P : A → Prop)
    (l : list A) :
  (∀ a, ∃ keep, f a = Js.Ok keep ∧ (keep = true ↔ P a)) →
  ∃ out, Js.filter_array f l = Js.Ok out
         ∧ out `sublist_of` l
         ∧ ∀ a, a ∈ out ↔ a ∈ l ∧ P a.
Proof.
  intros Hf. induction l as [|a l (out & Hout & Hsub & Hmem)].
  - exists []. split; [reflexivity|]. split; [constructor|].
    intros a. rewrite elem_of_nil. tauto.
  - destruct (Hf a) as (keep & Ha & Hkeep). cbn [Js.filter_array].
    rewrite Ha, Hout. cbn [mbind Js.result_bind]. eexists. split; [reflexivity|].
    destruct keep.
    + split; [now constructor|]. intros b. rewrite !elem_of_cons, Hmem.
      split; [intros [->|[? ?]]; [split; [auto|now apply Hkeep]|auto] | ].
      intros [[->|?] ?]; auto.
    + split; [now constructor|]. intros b. rewrite elem_of_cons, Hmem.
      split; [intros [? ?]; auto|]. intros [[->|?] HP]; [|auto].
      apply Hkeep in HP. discriminate.
Qed.

(** C9: the filter of the transaction map never throws, and it keeps,
    in their order, exactly the transactions whose location is an
    object with a numeric, non-[NaN] [lat] and [lng]; a transaction
    without a location, with a coordinate that is missing or not a
    number, or with [lat = NaN], is left out. *)
Theorem valid_transactions_exactly (transactions : list Transaction.t) :
  ∃ valid, TransactionMap.validTransactions transactions = Js.Ok valid
    ∧ valid `sublist_of` transactions
    ∧ (∀ t, t ∈ valid ↔ t ∈ transactions ∧ TransactionMap.numeric_coordinates t)
    ∧ (∀ t props, t ∈ valid → Transaction.location t = Js.Object props →
         props !! "lat" ≠ Some (Js.Number nan)
         ∧ (∃ la, props !! "lat" = Some (Js.Number la))
         ∧ (∃ ln, props !! "lng" = Some (Js.Number ln)))
    ∧ (∀ t, t ∈ valid → ∃ props, Transaction.location t = Js.Object props).
Proof.
  destruct (filter_array_total TransactionMap.has_coordinates
              TransactionMap.numeric_coordinates transactions
              has_coordinates_decides) as (valid & Hvalid & Hsub & Hmem).
  exists valid. split; [exact Hvalid|]. split; [exact Hsub|].
  split; [exact Hmem|]. split.
  - intros t props [_ (props' & la & ln & Hloc & Hlat & Hlng & Na & Nn)]%Hmem Hobj.
    rewrite Hobj in Hloc. injection Hloc as <-. split; [|eauto].
    rewrite Hlat. intros [= ->]. discriminate.
  - intros t [_ (props & _ & _ & Hloc & _)]%Hmem. eauto.
Qed.

(** * Further properties of the components *)

(** ** Runs of the dashboard *)

Lemma sublist_fmap_id {A B : Type} (f : A → B) (l k : list A) :
  l `sublist_of` k → f <$> l `sublist_of` f <$> k.
Proof. induction 1; cbn; [constructor | now constructor | now constructor]. Qed.

Lemma history_run_live (xs : list arrival) : ∀ s,
  length (history s) ≤ 50 ∨ xs ≠ [] →
  history (run s (live <$> xs)) = take 50 (reverse (snd <$> xs) ++ history s).
Proof.
  induction xs as [|[[now iso] t] xs IH]; intros s Hs.
  - destruct Hs as [Hs|Hs]; [|congruence]. cbn. symmetry. now apply take_ge.
  - rewrite fmap_cons, run_cons, IH.
    + cbn [live]. rewrite history_step_live, fmap_cons, reverse_cons, <- app_assoc.
      cbn [app snd]. apply take_app_push_take. lia.
    + left. cbn [live]. rewrite history_step_live. apply length_push_take.
Qed.

(** X1: a burst of live events leaves in the history the events of
    the burst, newest first, followed by the records that were there,
    the whole cut to 50; this holds from any history within the cap,
    and from any history at all once the burst is not empty. *)
Theorem history_most_recent_first (xs : list arrival) (s : State) :
  length (history s) ≤ 50 ∨ xs ≠ [] →
  history (run s (live <$> xs)) = take 50 (reverse (snd <$> xs) ++ history s)
  ∧ (50 ≤ length xs →
       history (run s (live <$> xs)) = reverse (snd <$> drop (length xs - 50) xs)).
Proof.
  intros Hs. pose proof (history_run_live xs s Hs) as E. split; [exact E|].
  intros Hlen. rewrite E, take_app_le.
  - rewrite take_reverse, length_fmap, fmap_drop. reflexivity.
  - rewrite length_reverse, length_fmap. exact Hlen.
Qed.

Lemma history_most_recent_first_witness :
  history (run (step initial (LoadResolved (Samples.payload 51)))
               (live <$> [(1%Z, "", Samples.blocked); (2%Z, "", Samples.routine)]))
  = Samples.routine :: Samples.blocked :: replicate 48 Samples.routine.
Proof.
  destruct (history_most_recent_first
              [(1%Z, "", Samples.blocked); (2%Z, "", Samples.routine)]
              (step initial (LoadResolved (Samples.payload 51)))) as [E _].
  - right. discriminate.
  - rewrite E. vm_compute. reflexivity.
Defined.

Lemma alerts_run_live (xs : list arrival) : ∀ s,
  length (alerts s) ≤ 20 →
  alerts (run s (live <$> xs))
  = take 20 (reverse (alert_of <$> filter triggers xs) ++ alerts s).
Proof.
  induction xs as [|[[now iso] t] xs IH]; intros s Hs.
  - cbn. symmetry. now apply take_ge.
  - rewrite fmap_cons, run_cons, IH by now apply alerts_step_bound.
    cbn [live step]. rewrite alerts_on_transaction_update. unfold created_alerts.
    destruct (decide (triggers (now, iso, t))) as [Ht|Ht].
    + rewrite filter_cons_True by exact Ht. unfold triggers in Ht. cbn in Ht.
      rewrite Ht. cbn [foldr].
      rewrite fmap_cons, reverse_cons, <- app_assoc. cbn [app alert_of].
      unfold push_alert. apply take_app_push_take. lia.
    + rewrite filter_cons_False by exact Ht. unfold triggers in Ht. cbn in Ht.
      apply not_true_is_false in Ht. rewrite Ht. reflexivity.
Qed.

(** X2: over any burst of live events, only the events that meet the
    alert policy count for the alert list: it holds their alerts,
    newest first, in front of the alerts that were there, cut to 20.
    Events below the policy neither evict nor reorder anything. *)
Theorem alerts_ignore_quiet_events (xs : list arrival) (s : State) :
  length (alerts s) ≤ 20 →
  alerts (run s (live <$> xs))
  = take 20 (reverse (alert_of <$> filter triggers xs) ++ alerts s)
  ∧ (Forall (fun x => ¬ triggers x) xs →
       alerts (run s (live <$> xs)) = alerts s).
Proof.
  intros Hs. pose proof (alerts_run_live xs s Hs) as E. split; [exact E|].
  intros Hquiet.
  assert (Hnone : filter triggers xs = []).
  { clear E. induction Hquiet as [|x xs Hx _ IH]; [reflexivity|].
    rewrite filter_cons_False by exact Hx. exact IH. }
  rewrite E, Hnone. cbn. now apply take_ge.
Qed.

Lemma alerts_ignore_quiet_events_witness :
  alerts (run initial (live <$> [(1%Z, "", Samples.routine);
                                 (2%Z, "", Samples.blocked);
                                 (3%Z, "", Samples.at_threshold)]))
  = [Samples.alert 2].
Proof.
  destruct (alerts_ignore_quiet_events
              [(1%Z, "", Samples.routine); (2%Z, "", Samples.blocked);
               (3%Z, "", Samples.at_threshold)] initial) as [E _].
  - cbn. lia.
  - rewrite E. vm_compute. reflexivity.
Defined.

Lemma alerts_step_congr s1 s2 e :
  alerts s1 = alerts s2 → alerts (step s1 e) = alerts (step s2 e).
Proof.
  intros E. destruct e; cbn [step alerts]; try assumption.
  - now rewrite !alerts_on_transaction_update, E.
  - now rewrite E.
Qed.

Lemma data_step_congr s1 s2 e :
  dashboardData s1 = dashboardData s2 →
  dashboardData (step s1 e) = dashboardData (step s2 e).
Proof.
  intros E. destruct e as [now iso t| |data| |x]; cbn [step dashboardData];
    try assumption; try reflexivity.
  unfold on_transaction_update. destruct (high_risk t); cbn; now rewrite E.
Qed.

Lemma alerts_step_untouched s e :
  touches_alerts e = false → alerts (step s e) = alerts s.
Proof. destruct e; cbn; congruence. Qed.

Lemma data_step_untouched s e :
  touches_data e = false → dashboardData (step s e) = dashboardData s.
Proof. destruct e; cbn; congruence. Qed.

(** X3: the alert list and the snapshot evolve independently.  The
    alert list after a run depends only on the alert list before it
    and on the live events and dismissals of the run: starting,
    completing or failing a refresh never changes it.  The snapshot
    depends only on the snapshot before and on the live events and
    successful refreshes: dismissals and failed refreshes never change
    it. *)
Theorem alerts_and_snapshot_independent (events : list event) (s1 s2 : State) :
  (alerts s1 = alerts s2 →
     alerts (run s1 events) = alerts (run s2 (filter touches_alerts events)))
  ∧ (dashboardData s1 = dashboardData s2 →
       dashboardData (run s1 events)
       = dashboardData (run s2 (filter touches_data events))).
Proof.
  split; revert s1 s2.
  - induction events as [|e events IH]; intros s1 s2 E; [exact E|].
    rewrite run_cons, filter_cons. destruct (touches_alerts e) eqn:He.
    + rewrite decide_True by exact I. rewrite run_cons.
      apply IH. now apply alerts_step_congr.
    + rewrite decide_False by (intros []). apply IH.
      now rewrite alerts_step_untouched.
  - induction events as [|e events IH]; intros s1 s2 E; [exact E|].
    rewrite run_cons, filter_cons. destruct (touches_data e) eqn:He.
    + rewrite decide_True by exact I. rewrite run_cons.
      apply IH. now apply data_step_congr.
    + rewrite decide_False by (intros []). apply IH.
      now rewrite data_step_untouched.
Qed.

Lemma run_app s events1 events2 :
  run s (events1 ++ events2) = run (run s events1) events2.
Proof. unfold run. apply foldl_app. Qed.

Lemma data_run_congr (events : list event) : ∀ s1 s2,
  dashboardData s1 = dashboardData s2 →
  dashboardData (run s1 events) = dashboardData (run s2 events).
Proof.
  induction events as [|e events IH]; intros s1 s2 E; [exact E|].
  rewrite !run_cons. apply IH. now apply data_step_congr.
Qed.

(** X4: the last refresh wins.  Once a refresh has delivered its
    payload, the snapshot (history and statistics) no longer depends
    on anything that happened before it: whatever the earlier events
    and the state they started from, the snapshot is the one obtained
    from the payload and the later events alone. *)
Theorem last_refresh_wins (before after : list event) (data : DashboardData)
    (s s' : State) :
  dashboardData (run s (before ++ LoadResolved data :: after))
  = dashboardData (run s' (LoadResolved data :: after))
  ∧ (∀ xs : list arrival,
       length (recent_transactions data) ≤ 50 ∨ xs ≠ [] →
       history (run s (before ++ LoadResolved data :: (live <$> xs)))
       = take 50 (reverse (snd <$> xs) ++ recent_transactions data)).
Proof.
  assert (E : ∀ later, dashboardData (run s (before ++ LoadResolved data :: later))
                       = dashboardData (run s' (LoadResolved data :: later))).
  { intros later. rewrite run_app, !run_cons. now apply data_run_congr. }
  split; [apply E|]. intros xs Hxs. unfold history at 1. rewrite (E (live <$> xs)).
  rewrite run_cons. fold (history (run (step s' (LoadResolved data)) (live <$> xs))).
  now rewrite history_run_live.
Qed.

Lemma stats_step_live_or_local s e :
  is_refresh e = false →
  fraud_stats (dashboardData (step s e)) = fraud_stats (dashboardData s).
Proof.
  destruct e as [now iso t| |data| |x]; cbn [is_refresh]; try discriminate;
    intros _; try reflexivity.
  cbn [step]. unfold on_transaction_update. destruct (high_risk t); reflexivity.
Qed.

(** X5: the statistics are refreshed only by a refresh.  Over any run
    without a successful refresh (live events, dismissals, failed
    refreshes) the three counters, and with them the fraud rate shown
    in the header, stay what they were, however many transactions -
    blocked ones included - have arrived. *)
Theorem fraud_rate_stale_between_refreshes (events : list event) (s : State) :
  Forall (fun e => is_refresh e = false) events →
  fraud_stats (dashboardData (run s events)) = fraud_stats (dashboardData s)
  ∧ calculateFraudRate (dashboardData (run s events))
    = calculateFraudRate (dashboardData s).
Proof.
  intros Hall.
  assert (E : fraud_stats (dashboardData (run s events))
              = fraud_stats (dashboardData s)).
  { revert s. induction Hall as [|e events He _ IH]; intros s; [reflexivity|].
    rewrite run_cons, IH. now apply stats_step_live_or_local. }
  split; [exact E|]. unfold calculateFraudRate. now rewrite E.
Qed.

Lemma fraud_rate_stale_between_refreshes_witness :
  calculateFraudRate
    (dashboardData (run (step initial (LoadResolved (Samples.payload 3)))
                        (live <$> Samples.burst)))
  = RateString (Js.Text "15.0").
Proof.
  destruct (fraud_rate_stale_between_refreshes (live <$> Samples.burst)
              (step initial (LoadResolved (Samples.payload 3)))) as [_ E].
  - apply Forall_fmap, Forall_forall. intros [[now iso] t] _. reflexivity.
  - rewrite E. vm_compute. reflexivity.
Defined.

(** ** Dismissals *)

Lemma alerts_run_dismissals (ids : list Z) : ∀ s,
  alerts (run s (ClearAlert <$> ids))
  = foldl (fun l x => onClearAlert x l) (alerts s) ids.
Proof.
  induction ids as [|x ids IH]; intros s; [reflexivity|].
  rewrite fmap_cons, run_cons, IH. reflexivity.
Qed.

Lemma dismiss_all_listed (ids : list Z) : ∀ l : list Alert.t,
  (∀ a, a ∈ l → Alert.id a ∈ ids) →
  foldl (fun l x => onClearAlert x l) l ids = [].
Proof.
  induction ids as [|x ids IH]; intros l Hl.
  - cbn. destruct l as [|a l]; [reflexivity|].
    specialize (Hl a (list_elem_of_here _ _)). inversion Hl.
  - cbn [foldl]. apply IH. intros a Ha. unfold onClearAlert in Ha.
    apply list_elem_of_filter in Ha as [Hne Ha].
    specialize (Hl a Ha). apply elem_of_cons in Hl as [Hx|Hin]; [contradiction|assumption].
Qed.

(** X6: dismissals compose as one expects of a filter: dismissing the
    same identifier twice is the same as once, two dismissals commute,
    an identifier that is not in the list changes nothing, and a
    dismissal never lengthens the list. *)
Theorem dismissal_algebra (x y : Z) (l : list Alert.t) :
  onClearAlert x (onClearAlert x l) = onClearAlert x l
  ∧ onClearAlert x (onClearAlert y l) = onClearAlert y (onClearAlert x l)
  ∧ (x ∉ Alert.id <$> l → onClearAlert x l = l)
  ∧ length (onClearAlert x l) ≤ length l
  ∧ (x ∉ Alert.id <$> onClearAlert x l).
Proof.
  unfold onClearAlert. split; [|split; [|split; [|split]]].
  - rewrite list_filter_filter. apply list_filter_iff. tauto.
  - rewrite !list_filter_filter. apply list_filter_iff. tauto.
  - apply onClearAlert_absent.
  - apply length_filter.
  - intros (a & Hx & Ha)%list_elem_of_fmap.
    apply list_elem_of_filter in Ha as [Hne _]. now apply Hne.
Qed.

Lemma alert_panel_cases (s : State) :
  alert_panel s
  = if loading s then None
    else match alerts s with
         | [] => None
         | _ :: _ =>
             Some {| AlertPanel.header_count := length (alerts s);
                     AlertPanel.items :=
                       (fun alert =>
                          {| AlertPanel.key := Alert.id alert;
                             AlertPanel.time := Alert.timestamp alert;
                             AlertPanel.sign :=
                               AlertPanel.getAlertIcon (Alert.type alert);
                             AlertPanel.text := Alert.message alert |})
                       <$> alerts s |}
         end.
Proof.
  unfold alert_panel, AlertPanel.render.
  destruct (loading s); [reflexivity|]. destruct (alerts s); reflexivity.
Qed.

(** X7: dismissing, one after the other, the identifier of every
    alert that is listed empties the list, and the alert panel is then
    gone from the page. *)
Theorem dismissing_every_alert_hides_panel (s : State) :
  let s' := run s (ClearAlert <$> (Alert.id <$> alerts s)) in
  alerts s' = [] ∧ alert_panel s' = None.
Proof.
  cbv zeta.
  assert (E : alerts (run s (ClearAlert <$> (Alert.id <$> alerts s))) = []).
  { rewrite alerts_run_dismissals. apply dismiss_all_listed.
    intros a Ha. now apply list_elem_of_fmap_2. }
  split; [exact E|]. rewrite alert_panel_cases, E. now destruct (loading _).
Qed.

(** X8: on every state reached from the initial one, the alert panel
    is on the page exactly when the dashboard is not loading and at
    least one alert is listed; it then shows between 1 and 20
    entries, its header shows their number, and the entries carry the
    identifiers of the alerts, in the order of the list, as React
    keys. *)
Theorem alert_panel_shown_iff (events : list event) :
  let s := run initial events in
  (alert_panel s = None ↔ loading s = true ∨ alerts s = [])
  ∧ (∀ p, alert_panel s = Some p →
       AlertPanel.header_count p = length (alerts s)
       ∧ 1 ≤ AlertPanel.header_count p ≤ 20
       ∧ length (AlertPanel.items p) = AlertPanel.header_count p
       ∧ AlertPanel.key <$> AlertPanel.items p = Alert.id <$> alerts s).
Proof.
  cbv zeta. set (s := run initial events).
  assert (Hcap : length (alerts s) ≤ 20) by (apply alerts_run_bound; cbn; lia).
  rewrite alert_panel_cases. destruct (loading s); [|destruct (alerts s) as [|a l] eqn:E].
  - split; [split; auto|]. discriminate.
  - split; [split; auto|]. discriminate.
  - split.
    + split; [discriminate|]. intros [?|?]; discriminate.
    + rewrite <- E. intros p [= <-]. cbn [AlertPanel.header_count AlertPanel.items].
      split; [reflexivity|]. split; [rewrite E in *; cbn in *; lia|].
      split; [apply length_fmap|]. rewrite <- list_fmap_compose. reflexivity.
Qed.

(** ** Identifiers and clock readings *)

Lemma readings_snoc events e :
  readings (events ++ [e])
  = readings events ++ match e with
                       | TransactionUpdate now _ _ => [now]
                       | _ => []
                       end.
Proof. unfold readings. rewrite omap_app. destruct e; reflexivity. Qed.

Lemma alert_ids_follow_readings (events : list event) :
  Alert.id <$> alerts (run initial events) `sublist_of` reverse (readings events).
Proof.
  induction events as [|e events IH] using rev_ind; [constructor|].
  rewrite run_snoc, readings_snoc, reverse_app.
  destruct e as [now iso t| |data| |x]; cbn [step alerts reverse app];
    rewrite ?reverse_nil; cbn [app]; try exact IH.
  - rewrite alerts_on_transaction_update. unfold created_alerts.
    change (reverse [now]) with [now]. cbn [app].
    destruct (high_risk t); cbn [foldr].
    + unfold push_alert. rewrite fmap_cons. cbn [Alert.id make_alert].
      apply sublist_skip. etrans; [|exact IH].
      apply sublist_fmap_id, sublist_take.
    + now apply sublist_cons.
  - etrans; [|exact IH]. apply sublist_fmap_id. unfold onClearAlert.
    apply sublist_filter.
Qed.

Lemma dismiss_unique (l : list Alert.t) (a : Alert.t) :
  NoDup (Alert.id <$> l) → a ∈ l →
  S (length (onClearAlert (Alert.id a) l)) = length l.
Proof.
  intros Hnd Ha. apply list_elem_of_split in Ha as (l1 & l2 & ->).
  rewrite fmap_app, fmap_cons in Hnd.
  apply NoDup_app in Hnd as (_ & H1 & H2). apply NoDup_cons in H2 as [H2 _].
  rewrite (onClearAlert_split (Alert.id a) l1 l2 a eq_refl).
  rewrite !onClearAlert_absent; [rewrite !length_app; cbn; lia|assumption|].
  intros Hin. apply (H1 _ Hin). apply list_elem_of_here.
Qed.

(** X9: the identifiers in the alert list are clock readings of live
    events, in reverse order of arrival.  Hence, when no two live
    events were handled at the same reading, the identifiers (and the
    React keys of the panel) are pairwise distinct, and dismissing a
    listed alert removes that one entry and no other. *)
Theorem distinct_readings_distinct_ids (events : list event) :
  NoDup (readings events) →
  let l := alerts (run initial events) in
  Alert.id <$> l `sublist_of` reverse (readings events)
  ∧ NoDup (Alert.id <$> l)
  ∧ (∀ a, a ∈ l → S (length (onClearAlert (Alert.id a) l)) = length l).
Proof.
  intros Hnd l. pose proof (alert_ids_follow_readings events) as Hsub.
  assert (Hids : NoDup (Alert.id <$> l)).
  { eapply sublist_NoDup; [|exact Hsub]. now rewrite reverse_Permutation. }
  split; [exact Hsub|]. split; [exact Hids|].
  intros a Ha. now apply dismiss_unique.
Qed.

Lemma distinct_readings_distinct_ids_witness :
  NoDup (Alert.id <$> alerts (run initial ((live <$> Samples.burst)
                                           ++ [ClearAlert 7]))).
Proof.
  destruct (distinct_readings_distinct_ids
              ((live <$> Samples.burst) ++ [ClearAlert 7])) as (_ & Hids & _).
  - apply (bool_decide_unpack _). vm_compute. exact I.
  - exact Hids.
Defined.

(** ** The filter of the transaction map, composed *)

Lemma has_coordinates_total (t : Transaction.t) :
  TransactionMap.has_coordinates t = Js.Ok (TransactionMap.located t).
Proof.
  unfold TransactionMap.located.
  destruct (has_coordinates_decides t) as (keep & -> & _). reflexivity.
Qed.

Lemma validTransactions_filter (transactions : list Transaction.t) :
  TransactionMap.validTransactions transactions
  = Js.Ok (filter TransactionMap.located transactions).
Proof.
  unfold TransactionMap.validTransactions.
  induction transactions as [|t l IH]; [reflexivity|].
  cbn [Js.filter_array]. rewrite has_coordinates_total, IH.
  cbn [mbind Js.result_bind]. rewrite filter_cons.
  destruct (TransactionMap.located t).
  - now rewrite decide_True by exact I.
  - now rewrite decide_False by (intros []).
Qed.

(** X10: the filter of the transaction map composes like a plain
    filter: the markers of a concatenation are the markers of its
    parts, one after the other; filtering what was already filtered
    changes nothing; and there are never more markers than
    transactions. *)
Theorem valid_transactions_compose (l1 l2 : list Transaction.t) :
  ∃ v1 v2,
    TransactionMap.validTransactions l1 = Js.Ok v1
    ∧ TransactionMap.validTransactions l2 = Js.Ok v2
    ∧ TransactionMap.validTransactions (l1 ++ l2) = Js.Ok (v1 ++ v2)
    ∧ TransactionMap.validTransactions v1 = Js.Ok v1
    ∧ length v1 ≤ length l1.
Proof.
  exists (filter TransactionMap.located l1), (filter TransactionMap.located l2).
  rewrite !validTransactions_filter, filter_app.
  split; [reflexivity|]. split; [reflexivity|]. split; [reflexivity|]. split.
  - f_equal. rewrite list_filter_filter. apply list_filter_iff. tauto.
  - apply length_filter.
Qed.

(** X11: after every live event the transaction map draws at most 50
    markers: the new transaction first, if it has coordinates, then
    the located ones among the first 49 records of the previous
    history. *)
Theorem map_markers_after_live_event (now : Z) (iso : string)
    (t : Transaction.t) (s : State) :
  ∃ valid,
    TransactionMap.validTransactions
      (history (step s (TransactionUpdate now iso t))) = Js.Ok valid
    ∧ length valid ≤ 50
    ∧ valid = (if TransactionMap.located t then [t] else [])
              ++ filter TransactionMap.located (take 49 (history s)).
Proof.
  rewrite validTransactions_filter, history_step_live. eexists.
  split; [reflexivity|]. split.
  - etrans; [apply length_filter|]. apply length_push_take.
  - rewrite filter_cons. destruct (TransactionMap.located t).
    + now rewrite decide_True by exact I.
    + now rewrite decide_False by (intros []).
Qed.

(** ** The order of binary64 numbers

    The comparisons of primitive floats are specified by [SFcompare]
    on their decoded form; the facts below are what the ladders and
    clamps of the components rely on. *)

Lemma Prim2SF_nan (x : float) : Prim2SF x = S754_nan ↔ is_nan x = true.
Proof.
  unfold Prim2SF. destruct (is_nan x); [tauto|].
  split; [|discriminate].
  destruct (is_zero x); [discriminate|].
  destruct (is_infinity x); [discriminate|].
  destruct (Z.frexp x) as [r e]. destruct (shr_fexp _ _ _ _ _) as [shr e'].
  destruct (shr_m shr); discriminate.
Qed.

Lemma SFcompare_antisym (x y : spec_float) (c : comparison) :
  SFcompare x y = Some c → SFcompare y x = Some (CompOpp c).
Proof.
  destruct x as [sx|sx| |sx mx ex], y as [sy|sy| |sy my ey]; cbn;
    try discriminate; try (intros [= <-]; reflexivity);
    try (destruct sx; intros [= <-]; reflexivity);
    try (destruct sy; intros [= <-]; reflexivity);
    try (destruct sx, sy; intros [= <-]; reflexivity).
  change (Pos.compare_cont Eq my mx) with (Pos.compare my mx).
  change (Pos.compare_cont Eq mx my) with (Pos.compare mx my).
  rewrite (Z.compare_antisym ex ey), (Pos.compare_antisym mx my).
  destruct sx, sy; intros [= <-]; try reflexivity;
    destruct (ex ?= ey)%Z; cbn; try reflexivity;
    destruct (mx ?= my)%positive; reflexivity.
Qed.

Lemma SFleb_trans (x y z : spec_float) :
  SFleb x y = true → SFleb y z = true → SFleb x z = true.
Proof.
  unfold SFleb.
  destruct x as [sx|sx| |sx mx ex], y as [sy|sy| |sy my ey],
    z as [sz|sz| |sz mz ez]; cbn;
    try discriminate; try reflexivity;
    try (destruct sx; try discriminate; try reflexivity);
    try (destruct sy; try discriminate; try reflexivity);
    try (destruct sz; try discriminate; try reflexivity).
  all: change (Pos.compare_cont Eq ?a ?b) with (Pos.compare a b).
  all: destruct (Z.compare_spec ex ey), (Z.compare_spec ey ez),
         (Z.compare_spec ex ez); subst; cbn; try discriminate; try reflexivity;
       try lia.
  all: destruct (Pos.compare_spec mx my), (Pos.compare_spec my mz),
         (Pos.compare_spec mx mz); subst; cbn; try discriminate;
       try reflexivity; try lia.
Qed.

Lemma leb_trans (x y z : float) :
  (x <=? y)%float = true → (y <=? z)%float = true → (x <=? z)%float = true.
Proof. rewrite !leb_spec. apply SFleb_trans. Qed.

Lemma ltb_leb (x y : float) :
  (x <? y)%float = true → (x <=? y)%float = true.
Proof.
  rewrite ltb_spec, leb_spec. unfold SFltb, SFleb.
  destruct (SFcompare _ _) as [[]|]; congruence.
Qed.

Lemma SFcompare_defined (x y : float) :
  is_nan x = false → is_nan y = false →
  ∃ c, SFcompare (Prim2SF x) (Prim2SF y) = Some c.
Proof.
  intros Hx Hy.
  destruct (Prim2SF x) as [sx|sx| |sx mx ex] eqn:Ex;
    [ | |apply Prim2SF_nan in Ex; congruence| ];
    (destruct (Prim2SF y) as [sy|sy| |sy my ey] eqn:Ey;
     [ | |apply Prim2SF_nan in Ey; congruence| ]); cbn; eauto.
Qed.

(** Two numbers are comparable: when [x < y] fails, [y <= x]. *)
Lemma ltb_false_leb (x y : float) :
  is_nan x = false → is_nan y = false →
  (x <? y)%float = false → (y <=? x)%float = true.
Proof.
  intros Hx Hy. rewrite ltb_spec, leb_spec. unfold SFltb, SFleb.
  destruct (SFcompare_defined x y Hx Hy) as [c Hc].
  rewrite Hc, (SFcompare_antisym _ _ _ Hc). destruct c; cbn; congruence.
Qed.

Lemma leb_ltb_false (x y : float) :
  (x <=? y)%float = true → (y <? x)%float = false.
Proof.
  rewrite ltb_spec, leb_spec. unfold SFltb, SFleb.
  destruct (SFcompare (Prim2SF x) (Prim2SF y)) as [c|] eqn:Hc; [|discriminate].
  rewrite (SFcompare_antisym _ _ _ Hc). destruct c; cbn; congruence.
Qed.

Lemma leb_not_nan (x y : float) :
  (x <=? y)%float = true → is_nan x = false ∧ is_nan y = false.
Proof.
  rewrite leb_spec. unfold SFleb. intros H.
  split; apply not_true_is_false; intros Hn%Prim2SF_nan; rewrite Hn in H.
  - discriminate.
  - destruct (Prim2SF x); discriminate.
Qed.

Lemma ltb_leb_false_iff (x y : float) :
  is_nan x = false → is_nan y = false →
  (x <=? y)%float = false ↔ (y <? x)%float = true.
Proof.
  intros Hx Hy. split; intros H.
  - destruct (y <? x)%float eqn:E; [reflexivity|].
    apply ltb_false_leb in E; congruence.
  - destruct (x <=? y)%float eqn:E; [|reflexivity].
    apply leb_ltb_false in E. congruence.
Qed.

Lemma leb_refl (x : float) : is_nan x = false → (x <=? x)%float = true.
Proof.
  intros Hx. rewrite leb_spec. unfold SFleb.
  destruct (SFcompare_defined x x Hx Hx) as [c Hc].
  pose proof (SFcompare_antisym _ _ _ Hc) as Hc'. rewrite Hc in Hc' |- *.
  destruct c; try reflexivity; discriminate.
Qed.

Lemma nan_compare (c x : float) :
  is_nan x = true → (c <=? x)%float = false ∧ (x <? c)%float = false.
Proof.
  intros Hx%Prim2SF_nan. rewrite leb_spec, ltb_spec, Hx. unfold SFleb, SFltb.
  split; [destruct (Prim2SF c); reflexivity | reflexivity].
Qed.

Lemma reach_cases (c x : float) :
  is_nan c = false → is_nan x = false →
  ((c <=? x)%float = true ∧ (x <? c)%float = false)
  ∨ ((c <=? x)%float = false ∧ (x <? c)%float = true).
Proof.
  intros Hc Hx. destruct (c <=? x)%float eqn:E.
  - left. split; [reflexivity|]. now apply leb_ltb_false.
  - right. split; [reflexivity|]. now apply ltb_leb_false_iff.
Qed.

Lemma reach_mono (c d x : float) :
  (c <=? d)%float = true → (d <=? x)%float = true → (c <=? x)%float = true.
Proof. apply leb_trans. Qed.

(** ** Colour ladders as intervals *)

Ltac ladder_contradiction :=
  match goal with
  | H : (?d <=? ?x)%float = true, E : (?c <=? ?x)%float = false |- _ =>
      assert ((c <=? x)%float = true)
        by (apply (reach_mono c d x); [reflexivity | exact H]);
      congruence
  end.

Ltac ladder_split :=
  repeat split; intros;
  repeat match goal with
         | H : _ ∧ _ |- _ => destruct H
         | H : _ ∨ _ |- _ => destruct H
         end;
  try reflexivity; try discriminate; try congruence; auto.

Lemma heat_ladder_intervals (x : float) :
  (HeatMap.getHeatColor x = "#FF0000" ↔ (0.8 <=? x)%float = true)
  ∧ (HeatMap.getHeatColor x = "#FF4500"
     ↔ (0.6 <=? x)%float = true ∧ (x <? 0.8)%float = true)
  ∧ (HeatMap.getHeatColor x = "#FF8C00"
     ↔ (0.4 <=? x)%float = true ∧ (x <? 0.6)%float = true)
  ∧ (HeatMap.getHeatColor x = "#FFD700"
     ↔ (0.2 <=? x)%float = true ∧ (x <? 0.4)%float = true)
  ∧ (HeatMap.getHeatColor x = "#FFFF00"
     ↔ (x <? 0.2)%float = true ∨ is_nan x = true).
Proof.
  unfold HeatMap.getHeatColor. destruct (is_nan x) eqn:Hx.
  - destruct (nan_compare 0.8 x Hx) as [-> ->], (nan_compare 0.6 x Hx) as [-> ->],
      (nan_compare 0.4 x Hx) as [-> ->], (nan_compare 0.2 x Hx) as [-> ->].
    ladder_split.
  - destruct (reach_cases 0.8 x eq_refl Hx) as [[E8 L8]|[E8 L8]],
      (reach_cases 0.6 x eq_refl Hx) as [[E6 L6]|[E6 L6]],
      (reach_cases 0.4 x eq_refl Hx) as [[E4 L4]|[E4 L4]],
      (reach_cases 0.2 x eq_refl Hx) as [[E2 L2]|[E2 L2]];
      try ladder_contradiction;
      rewrite ?E8, ?E6, ?E4, ?E2, ?L8, ?L6, ?L4, ?L2; ladder_split.
Qed.

Lemma risk_ladder_intervals (x : float) :
  (TransactionMap.getRiskColor x = "#F44336" ↔ (0.8 <=? x)%float = true)
  ∧ (TransactionMap.getRiskColor x = "#FF9800"
     ↔ (0.5 <=? x)%float = true ∧ (x <? 0.8)%float = true)
  ∧ (TransactionMap.getRiskColor x = "#FFC107"
     ↔ (0.3 <=? x)%float = true ∧ (x <? 0.5)%float = true)
  ∧ (TransactionMap.getRiskColor x = "#4CAF50"
     ↔ (x <? 0.3)%float = true ∨ is_nan x = true).
Proof.
  unfold TransactionMap.getRiskColor. destruct (is_nan x) eqn:Hx.
  - destruct (nan_compare 0.8 x Hx) as [-> ->], (nan_compare 0.5 x Hx) as [-> ->],
      (nan_compare 0.3 x Hx) as [-> ->].
    ladder_split.
  - destruct (reach_cases 0.8 x eq_refl Hx) as [[E8 L8]|[E8 L8]],
      (reach_cases 0.5 x eq_refl Hx) as [[E5 L5]|[E5 L5]],
      (reach_cases 0.3 x eq_refl Hx) as [[E3 L3]|[E3 L3]];
      try ladder_contradiction;
      rewrite ?E8, ?E5, ?E3, ?L8, ?L5, ?L3; ladder_split.
Qed.

(** X12: each colour of the two ladders stands for an interval of
    scores, as the legends say: on the heat map red is [0.8, ..),
    orange-red [0.6, 0.8), dark orange [0.4, 0.6), gold [0.2, 0.4) and
    yellow everything below 0.2; on the transaction map red is
    [0.8, ..), orange [0.5, 0.8), amber [0.3, 0.5) and green
    everything below 0.3.  A score that is not a number gets the
    lowest colour. *)
Theorem ladders_are_intervals (x : float) :
  ((HeatMap.getHeatColor x = "#FF0000" ↔ (0.8 <=? x)%float = true)
   ∧ (HeatMap.getHeatColor x = "#FF4500"
      ↔ (0.6 <=? x)%float = true ∧ (x <? 0.8)%float = true)
   ∧ (HeatMap.getHeatColor x = "#FF8C00"
      ↔ (0.4 <=? x)%float = true ∧ (x <? 0.6)%float = true)
   ∧ (HeatMap.getHeatColor x = "#FFD700"
      ↔ (0.2 <=? x)%float = true ∧ (x <? 0.4)%float = true)
   ∧ (HeatMap.getHeatColor x = "#FFFF00"
      ↔ (x <? 0.2)%float = true ∨ is_nan x = true))
  ∧ ((TransactionMap.getRiskColor x = "#F44336" ↔ (0.8 <=? x)%float = true)
     ∧ (TransactionMap.getRiskColor x = "#FF9800"
        ↔ (0.5 <=? x)%float = true ∧ (x <? 0.8)%float = true)
     ∧ (TransactionMap.getRiskColor x = "#FFC107"
        ↔ (0.3 <=? x)%float = true ∧ (x <? 0.5)%float = true)
     ∧ (TransactionMap.getRiskColor x = "#4CAF50"
        ↔ (x <? 0.3)%float = true ∨ is_nan x = true)).
Proof. split; [apply heat_ladder_intervals | apply risk_ladder_intervals]. Qed.

(** ** Products are numbers *)

Lemma shr_1_nonneg (mrs : shr_record) :
  (0 ≤ shr_m mrs)%Z → (0 ≤ shr_m (shr_1 mrs))%Z.
Proof. destruct mrs as [[|[p|p|]|p] r t]; cbn; lia. Qed.

Lemma iter_shr_1_nonneg (p : positive) : ∀ mrs,
  (0 ≤ shr_m mrs)%Z → (0 ≤ shr_m (SpecFloat.iter_pos shr_1 p mrs))%Z.
Proof.
  induction p as [p IH|p IH|]; intros mrs H; cbn [iter_pos].
  - apply IH, IH. now apply shr_1_nonneg.
  - now apply IH, IH.
  - now apply shr_1_nonneg.
Qed.

Lemma shr_fexp_nonneg (prec emax m e : Z) (l : location) :
  (0 ≤ m)%Z → (0 ≤ shr_m (shr_fexp prec emax m e l).1)%Z.
Proof.
  intros Hm. unfold shr_fexp, shr.
  assert (H0 : (0 ≤ shr_m (shr_record_of_loc m l))%Z)
    by (destruct l as [|[]]; exact Hm).
  destruct (_ - e)%Z; cbn [fst]; [exact H0| |exact H0].
  now apply iter_shr_1_nonneg.
Qed.

Lemma round_nearest_even_nonneg (m : Z) (l : location) :
  (0 ≤ m)%Z → (0 ≤ round_nearest_even m l)%Z.
Proof.
  intros Hm. destruct l as [|[]]; cbn; try lia. destruct (Z.even m); lia.
Qed.

Lemma binary_round_aux_not_nan (prec emax : Z) (sx : bool) (m : positive)
    (e : Z) (l : location) :
  binary_round_aux prec emax sx (Z.pos m) e l ≠ S754_nan.
Proof.
  unfold binary_round_aux.
  pose proof (shr_fexp_nonneg prec emax (Z.pos m) e l ltac:(lia)) as H1.
  destruct (shr_fexp prec emax (Z.pos m) e l) as [mrs' e'].
  cbn [fst] in H1.
  pose proof (shr_fexp_nonneg prec emax
                (round_nearest_even (shr_m mrs') (loc_of_shr_record mrs'))
                e' loc_Exact
                (round_nearest_even_nonneg _ _ H1)) as H2.
  destruct (shr_fexp prec emax _ e' loc_Exact) as [mrs'' e''].
  cbn [fst] in H2. destruct (shr_m mrs''); [discriminate| |lia].
  destruct (_ <=? _)%Z; discriminate.
Qed.

(** The product of a number and a finite non-zero number is a number. *)
Lemma mul_not_nan (x y : float) (s : bool) (m : positive) (e : Z) :
  is_nan x = false → Prim2SF y = S754_finite s m e → is_nan (x * y) = false.
Proof.
  intros Hx Hy. apply not_true_is_false. intros Hn%Prim2SF_nan.
  rewrite mul_spec, Hy in Hn. unfold SF64mul in Hn.
  destruct (Prim2SF x) as [sx|sx| |sx mx ex] eqn:Ex; cbn in Hn;
    try discriminate.
  - apply Prim2SF_nan in Ex. congruence.
  - now apply binary_round_aux_not_nan in Hn.
Qed.

(** ** Clamps of the heat map *)

Lemma Math_min_bound (a b : float) :
  is_nan a = false → is_nan b = false →
  is_nan (Js.Math_min a b) = false
  ∧ (Js.Math_min a b <=? b)%float = true
  ∧ ((a <? b)%float = true → Js.Math_min a b = a).
Proof.
  intros Ha Hb. unfold Js.Math_min. rewrite Ha, Hb. cbn [orb].
  destruct (a <? b)%float eqn:Hab.
  - split; [exact Ha|]. split; [now apply ltb_leb|reflexivity].
  - assert (Hbb : (b <=? b)%float = true).
    { now apply leb_refl. }
    destruct (b <? a)%float eqn:Hba.
    + split; [exact Hb|]. split; [exact Hbb|discriminate].
    + destruct (Js.is_neg_zero a).
      * split; [exact Ha|]. split; [now apply ltb_false_leb|discriminate].
      * split; [exact Hb|]. split; [exact Hbb|discriminate].
Qed.

Lemma Math_max_bound (a b : float) :
  is_nan a = false → is_nan b = false →
  is_nan (Js.Math_max a b) = false ∧ (b <=? Js.Math_max a b)%float = true.
Proof.
  intros Ha Hb. unfold Js.Math_max. rewrite Ha, Hb. cbn [orb].
  assert (Hbb : (b <=? b)%float = true).
  { now apply leb_refl. }
  destruct (b <? a)%float eqn:Hba.
  - split; [exact Ha|now apply ltb_leb].
  - destruct (a <? b)%float eqn:Hab; [now split|].
    destruct (Js.is_pos_zero a); [|now split].
    split; [exact Ha|now apply ltb_false_leb].
Qed.

Lemma number_or_not_nan (x d : float) :
  is_nan d = false → is_nan (Js.number_or x d) = false.
Proof.
  intros Hd. unfold Js.number_or, Js.truthy_number.
  destruct (is_zero x); cbn; [exact Hd|]. destruct (is_nan x) eqn:E; cbn; auto.
Qed.

Lemma truthy_not_nan (x : float) :
  Js.truthy_number x = true → is_nan x = false.
Proof.
  unfold Js.truthy_number. intros H%negb_true_iff%orb_false_iff. tauto.
Qed.

Lemma risk_or_default_not_nan (point : HeatMap.Hotspot) :
  is_nan (HeatMap.risk_or_default point) = false.
Proof.
  unfold HeatMap.risk_or_default.
  destruct (HeatMap.avg_risk_score point); [|reflexivity].
  now apply number_or_not_nan.
Qed.

(** X13: for a hotspot whose average risk score is a number - any
    number, [NaN] included - or is [null] or absent, the intensity is
    a number and is at most 1, and every circle drawn for such hotspots
    has a radius that is a number and is at least 10.  Nothing bounds
    the intensity from below: a score other than 0 that is below 1,
    a negative one included, is passed through as it is.  (A score
    that is not a number is outside this statement.) *)
Theorem heat_intensity_and_radius_bounds (data : list HeatMap.Hotspot) :
  (∀ point,
     (HeatMap.avg_risk_score point = None
      ∨ ∃ x : float, HeatMap.avg_risk_score point = Some x) →
     is_nan (HeatMap.intensity point) = false
     ∧ (HeatMap.intensity point <=? 1)%float = true)
  ∧ (∀ point, HeatMap.avg_risk_score point = Some nan →
              HeatMap.intensity point = 0.5%float)
  ∧ (∀ c, c ∈ HeatMap.heatLayer data →
          is_nan (HeatMap.radius c) = false
          ∧ (10 <=? HeatMap.radius c)%float = true)
  ∧ (∀ point x, HeatMap.avg_risk_score point = Some x →
                Js.truthy_number x = true → (x <? 1)%float = true →
                HeatMap.intensity point = x).
Proof.
  assert (Hint : ∀ point, is_nan (HeatMap.intensity point) = false
                          ∧ (HeatMap.intensity point <=? 1)%float = true).
  { intros point. unfold HeatMap.intensity, HeatMap.heatPoint. cbn [snd].
    destruct (Math_min_bound (HeatMap.risk_or_default point) 1
                (risk_or_default_not_nan point) eq_refl) as (Hn & Hle & _).
    now split. }
  split; [intros point _; apply Hint|].
  split; [intros point Hx; now rewrite intensity_cases, Hx|]. split.
  - intros c (p & la & ln & _ & _ & _ & _ & _ & ->)%heatLayer_elem.
    cbn [HeatMap.circle HeatMap.radius].
    destruct (Hint p) as [Hn _].
    assert (Hmul : is_nan (HeatMap.intensity p * 50) = false).
    { eapply mul_not_nan; [exact Hn|]. vm_compute. reflexivity. }
    exact (Math_max_bound _ 10 Hmul eq_refl).
  - intros point x Hx Ht Hlt. rewrite intensity_cases, Hx, Ht.
    apply Math_min_bound; [|reflexivity|exact Hlt].
    now apply truthy_not_nan.
Qed.

Lemma eqb_leb (x y : float) :
  (x =? y)%float = true → (x <=? y)%float = true.
Proof.
  rewrite FloatAxioms.eqb_spec, leb_spec. unfold SFeqb, SFleb.
  destruct (SFcompare _ _) as [[]|]; congruence.
Qed.

Lemma falsy_below (c x : float) :
  Js.truthy_number x = false → (c <=? 0)%float = false →
  (c <=? x)%float = false.
Proof.
  unfold Js.truthy_number. intros Hx Hc.
  apply negb_false_iff, orb_true_iff in Hx as [Hz|Hn].
  - apply not_true_is_false. intros Hcx. unfold is_zero in Hz.
    apply eqb_leb in Hz. rewrite (leb_trans c x 0 Hcx Hz) in Hc. discriminate.
  - now apply nan_compare.
Qed.

Lemma same_step_ladders (x : float) :
  HeatMap.same_step (HeatMap.getHeatColor x) (HeatMap.getThreatLevel x).
Proof.
  unfold HeatMap.same_step, HeatMap.getHeatColor, HeatMap.getThreatLevel.
  destruct (0.8 <=? x)%float; [tauto|]. destruct (0.6 <=? x)%float; [tauto|].
  destruct (0.4 <=? x)%float; [tauto|]. destruct (0.2 <=? x)%float; tauto.
Qed.

(** X14: the colour of a circle and the threat level in its own
    hotspot's popup name the same step of the ladder whenever the
    average risk score is a number other than 0, although the colour
    is taken from the clamped intensity and the level from the raw
    score.  When the score is falsy (0, NaN, null or absent) they
    part: the circle is dark orange, the colour of "Medium", and the
    level reads "Low". *)
Theorem heat_colour_and_threat_level (point : HeatMap.Hotspot) :
  let colour := HeatMap.getHeatColor (HeatMap.intensity point) in
  let level := HeatMap.popup_threat point in
  (∀ x, HeatMap.avg_risk_score point = Some x → Js.truthy_number x = true →
        HeatMap.same_step colour level)
  ∧ ((HeatMap.avg_risk_score point = None
      ∨ ∃ x, HeatMap.avg_risk_score point = Some x
             ∧ Js.truthy_number x = false) →
     colour = "#FF8C00" ∧ level = "🟢 Low").
Proof.
  cbv zeta. rewrite intensity_cases. unfold HeatMap.popup_threat. split.
  - intros x -> Ht. rewrite Ht. pose proof (truthy_not_nan x Ht) as Hn.
    unfold Js.Math_min. rewrite Hn. cbn [orb is_nan].
    change (is_nan 1) with false. cbn iota.
    destruct (x <? 1)%float eqn:Hlt; [apply same_step_ladders|].
    assert (Hcrit : HeatMap.getThreatLevel x = "🚨 Critical").
    { unfold HeatMap.getThreatLevel.
      rewrite (leb_trans 0.8 1 x eq_refl (ltb_false_leb x 1 Hn eq_refl Hlt)).
      reflexivity. }
    destruct (1 <? x)%float; [left; now split|].
    destruct (Js.is_neg_zero x); [apply same_step_ladders|left; now split].
  - intros [->|(x & -> & Ht)]; [now split|]. rewrite Ht. split; [reflexivity|].
    unfold HeatMap.getThreatLevel.
    rewrite (falsy_below 0.8 x Ht eq_refl), (falsy_below 0.6 x Ht eq_refl),
      (falsy_below 0.4 x Ht eq_refl), (falsy_below 0.2 x Ht eq_refl).
    reflexivity.
Qed.

(** ** The popup of a circle *)

Lemma pointData_first (la ln : float) (before after : list HeatMap.Hotspot)
    (h : HeatMap.Hotspot) :
  HeatMap.at_coordinates la ln h = true →
  Forall (fun q => HeatMap.at_coordinates la ln q = false) before →
  HeatMap.pointData (before ++ h :: after) la ln = Some h.
Proof.
  intros Hh Hbefore. unfold HeatMap.pointData.
  induction Hbefore as [|q before Hq _ IH]; cbn [app find].
  - now rewrite Hh.
  - now rewrite Hq.
Qed.

(** X15: every circle that is drawn finds a hotspot for its popup:
    the lookup by coordinates cannot fail for a plotted point.  What
    it finds is the first hotspot of the data with those coordinates,
    so the popup shows the circle's own hotspot when no earlier one
    shares its coordinates, and the earlier one's details otherwise. *)
Theorem popup_shows_first_hotspot_at_coordinates
    (data : list HeatMap.Hotspot) (point : HeatMap.Hotspot) (la ln : float) :
  point ∈ data →
  HeatMap.lat (HeatMap._id point) = Some la →
  HeatMap.lng (HeatMap._id point) = Some ln →
  is_nan la = false → is_nan ln = false →
  (∃ shown, HeatMap.pointData data la ln = Some shown
            ∧ shown ∈ data
            ∧ HeatMap.at_coordinates la ln shown = true)
  ∧ (∀ before h after,
       data = before ++ h :: after →
       HeatMap.at_coordinates la ln h = true →
       Forall (fun q => HeatMap.at_coordinates la ln q = false) before →
       HeatMap.pointData data la ln = Some h).
Proof.
  intros Hin Hla Hln Na Nn.
  assert (Hself : HeatMap.at_coordinates la ln point = true).
  { unfold HeatMap.at_coordinates, HeatMap.same_coordinate. rewrite Hla, Hln.
    unfold is_nan in Na, Nn. apply negb_false_iff in Na, Nn. now rewrite Na, Nn. }
  split.
  - unfold HeatMap.pointData.
    destruct (find _ data) as [shown|] eqn:Efind.
    + apply find_some in Efind as [Hshown Hat]. exists shown.
      split; [reflexivity|]. split; [now apply list_elem_of_In|exact Hat].
    + apply list_elem_of_In in Hin.
      pose proof (find_none _ _ Efind point Hin) as Hno. congruence.
  - intros before h after -> Hh Hbefore. now apply pointData_first.
Qed.

Lemma popup_shows_first_hotspot_at_coordinates_witness :
  HeatMap.pointData [Samples.hotspot (Some 0.2%float); Samples.hotspot (Some 0.9%float)]
                    40.7128 (-74.006)
  = Some (Samples.hotspot (Some 0.2%float)).
Proof.
  destruct (popup_shows_first_hotspot_at_coordinates
              [Samples.hotspot (Some 0.2%float); Samples.hotspot (Some 0.9%float)]
              (Samples.hotspot (Some 0.9%float)) 40.7128 (-74.006))
    as [_ Hfirst].
  - apply list_elem_of_further, list_elem_of_here.
  - reflexivity.
  - reflexivity.
  - reflexivity.
  - reflexivity.
  - now apply (Hfirst [] (Samples.hotspot (Some 0.2%float))
                 [Samples.hotspot (Some 0.9%float)]).
Defined.

(** ** The fetch cycle of the heat map *)

Lemma heat_run_snoc s events e :
  HeatMap.run s (events ++ [e]) = HeatMap.step (HeatMap.run s events) e.
Proof. unfold HeatMap.run. now rewrite foldl_snoc. Qed.

Lemma last_resolved_snoc events e :
  HeatMap.last_resolved (events ++ [e])
  = match e with
    | HeatMap.FetchResolved data now => Some (data, now)
    | _ => HeatMap.last_resolved events
    end.
Proof. unfold HeatMap.last_resolved. rewrite foldl_snoc. reflexivity. Qed.

(** X16: the hotspots held by the heat map are always the payload of
    the latest fetch that succeeded (none before the first success),
    and "last updated" is the time of that fetch: starting a fetch or
    failing one never discards or changes what is held.  The loading
    spinner is shown exactly until the first fetch completes, with
    either outcome, and never again. *)
Theorem heat_map_holds_last_success (events : list HeatMap.fetch) :
  let s := HeatMap.run HeatMap.initial events in
  HeatMap.heatMapData s = from_option fst [] (HeatMap.last_resolved events)
  ∧ HeatMap.lastUpdate s = snd <$> HeatMap.last_resolved events
  ∧ (HeatMap.loading s = true ↔ Forall (fun e => HeatMap.completes e = false) events)
  ∧ (HeatMap.render s = HeatMap.Spinner
     ↔ Forall (fun e => HeatMap.completes e = false) events).
Proof.
  cbv zeta.
  assert (H : HeatMap.heatMapData (HeatMap.run HeatMap.initial events)
              = from_option fst [] (HeatMap.last_resolved events)
            ∧ HeatMap.lastUpdate (HeatMap.run HeatMap.initial events)
              = snd <$> HeatMap.last_resolved events
            ∧ (HeatMap.loading (HeatMap.run HeatMap.initial events) = true
               ↔ Forall (fun e => HeatMap.completes e = false) events)).
  { induction events as [|e events (Hd & Hu & Hl)] using rev_ind.
    - split; [reflexivity|]. split; [reflexivity|]. split; [constructor|reflexivity].
    - rewrite heat_run_snoc, last_resolved_snoc, Forall_app, Forall_singleton.
      destruct e as [|data now|]; cbn [HeatMap.step HeatMap.heatMapData
        HeatMap.lastUpdate HeatMap.loading HeatMap.completes].
      + split; [exact Hd|]. split; [exact Hu|]. rewrite Hl. tauto.
      + split; [reflexivity|]. split; [reflexivity|].
        split; [discriminate|]. intros [_ ?]; discriminate.
      + split; [exact Hd|]. split; [exact Hu|].
        split; [discriminate|]. intros [_ ?]; discriminate. }
  destruct H as (Hd & Hu & Hl). split; [exact Hd|]. split; [exact Hu|].
  split; [exact Hl|]. rewrite <- Hl. unfold HeatMap.render.
  destruct (HeatMap.loading _); [tauto|].
  split; [|discriminate]. destruct (HeatMap.error _); discriminate.
Qed.

Lemma heat_error_run (later : list HeatMap.fetch) : ∀ s,
  Forall (fun e => e ≠ HeatMap.FetchStarted ∧ e ≠ HeatMap.FetchRejected) later →
  HeatMap.error (HeatMap.run s later) = HeatMap.error s.
Proof.
  induction later as [|e later IH]; intros s Hall; [reflexivity|].
  inversion Hall as [|? ? [Hs Hr] Hrest]; subst.
  change (HeatMap.run s (e :: later)) with (HeatMap.run (HeatMap.step s e) later).
  rewrite IH by assumption. destruct e; [contradiction|reflexivity|contradiction].
Qed.

(** X17: a success does not clear an error.  After a failed fetch
    the error message replaces the map, although the hotspots are
    kept, and it stays - through any number of successful fetches, for
    instance of a request that was already under way - until another
    fetch is started. *)
Theorem heat_map_error_outlives_success (events later : list HeatMap.fetch)
    (s : HeatMap.State) :
  Forall (fun e => e ≠ HeatMap.FetchStarted ∧ e ≠ HeatMap.FetchRejected) later →
  let failed := HeatMap.run s (events ++ HeatMap.FetchRejected :: later) in
  let retried := HeatMap.run s (events ++ HeatMap.FetchStarted :: later) in
  HeatMap.render failed = HeatMap.ErrorMessage "Failed to load heat map data"
  ∧ HeatMap.error retried = None
  ∧ HeatMap.heatMapData (HeatMap.run s (events ++ [HeatMap.FetchRejected]))
    = HeatMap.heatMapData (HeatMap.run s events).
Proof.
  intros Hlater failed retried. subst failed retried. unfold HeatMap.run at 1 2.
  rewrite !foldl_app. cbn [foldl].
  fold (HeatMap.run (HeatMap.step (foldl HeatMap.step s events) HeatMap.FetchRejected) later).
  fold (HeatMap.run (HeatMap.step (foldl HeatMap.step s events) HeatMap.FetchStarted) later).
  split; [|split].
  - assert (Hload : HeatMap.loading
                      (HeatMap.run (HeatMap.step (foldl HeatMap.step s events)
                                                 HeatMap.FetchRejected) later) = false).
    { generalize (foldl HeatMap.step s events). intros s0.
      assert (G : ∀ s1, HeatMap.loading s1 = false →
                        HeatMap.loading (HeatMap.run s1 later) = false).
      { clear. induction later as [|e later IH]; intros s1 H1; [exact H1|].
        change (HeatMap.run s1 (e :: later))
          with (HeatMap.run (HeatMap.step s1 e) later).
        apply IH. destruct e; cbn; auto. }
      apply G. reflexivity. }
    unfold HeatMap.render. rewrite Hload, (heat_error_run later _ Hlater).
    reflexivity.
  - now rewrite (heat_error_run later _ Hlater).
  - rewrite heat_run_snoc. reflexivity.
Qed.

Lemma heat_map_error_outlives_success_witness :
  HeatMap.render
    (HeatMap.run HeatMap.initial
       [HeatMap.FetchStarted; HeatMap.FetchStarted; HeatMap.FetchRejected;
        HeatMap.FetchResolved [Samples.hotspot (Some 0.9%float)] 5])
  = HeatMap.ErrorMessage "Failed to load heat map data".
Proof.
  destruct (heat_map_error_outlives_success
              [HeatMap.FetchStarted; HeatMap.FetchStarted]
              [HeatMap.FetchResolved [Samples.hotspot (Some 0.9%float)] 5]
              HeatMap.initial) as [Hshown _].
  - repeat constructor; discriminate.
  - exact Hshown.
Defined.

(** ** The risk shown for a transaction *)




(** ** React keys of the transaction rows *)

Lemma pretty_N_go_no_dash (x : N) : ∀ s,
  Js.no_dash s → Js.no_dash (pretty_N_go x s).
Proof.
  induction (N.lt_wf_0 x) as [x _ IH]; intros s Hs.
  assert (x = 0 ∨ 0 < x)%N as [->|Hx] by lia.
  - now rewrite pretty_N_go_0.
  - rewrite pretty_N_go_step by exact Hx. apply IH.
    + now apply N.div_lt.
    + split; [|exact Hs]. unfold pretty_N_char.
      repeat case_match; discriminate.
Qed.

Lemma pretty_nat_no_dash (n : nat) : Js.no_dash (pretty n).
Proof.
  unfold pretty, pretty_nat, pretty, pretty_N.
  destruct (decide (N.of_nat n = 0%N)).
  - cbn. split; [discriminate|exact I].
  - now apply pretty_N_go_no_dash.
Qed.

Lemma dash_in_suffix (a d : string) : ¬ Js.no_dash (a +:+ String "-" d).
Proof.
  induction a as [|c a IH].
  - intros [Hc _]. now apply Hc.
  - intros [_ Hrest]. now apply IH.
Qed.

Lemma index_suffix_unique (a b d d' : string) :
  Js.no_dash d → Js.no_dash d' →
  a +:+ String "-" d = b +:+ String "-" d' → d = d'.
Proof.
  intros Hd Hd'. revert b. induction a as [|c a IH]; intros [|c' b] H.
  - now injection H.
  - change (String "-" d = String c' (b +:+ String "-" d')) in H.
    injection H as _ ->. now apply dash_in_suffix in Hd.
  - change (String c (a +:+ String "-" d) = String "-" d') in H.
    injection H as _ <-. now apply dash_in_suffix in Hd'.
  - change (String c (a +:+ String "-" d) = String c' (b +:+ String "-" d')) in H.
    injection H as _ H. now apply (IH b).
Qed.

(** X19: the React keys of the transaction rows (and of the markers
    of the map) are pairwise distinct, whatever the transaction
    identifiers are - dashes and digits included - and even when the
    same transaction is listed twice: the index in the key tells the
    rows apart. *)
Theorem transaction_keys_distinct (transactions : list Transaction.t) :
  NoDup (TransactionMap.transaction_keys transactions)
  ∧ length (TransactionMap.transaction_keys transactions) = length transactions.
Proof.
  unfold TransactionMap.transaction_keys. split; [|apply length_imap].
  apply NoDup_alt. intros i j k Hi Hj.
  rewrite list_lookup_imap in Hi, Hj.
  destruct (transactions !! i) as [ti|]; [|discriminate].
  destruct (transactions !! j) as [tj|]; [|discriminate].
  cbn in Hi, Hj. injection Hi as <-. injection Hj as Hj.
  unfold TransactionMap.transaction_key in Hj.
  change (Transaction.transaction_id tj +:+ String "-" (pretty j)
          = Transaction.transaction_id ti +:+ String "-" (pretty i)) in Hj.
  apply index_suffix_unique in Hj; try apply pretty_nat_no_dash.
  symmetry. now apply (inj pretty).
Qed.

(** ** The alert policy and the risk shown *)

Lemma ltb_leb_trans (x y z : float) :
  (x <? y)%float = true → (y <=? z)%float = true → (x <? z)%float = true.
Proof.
  intros Hxy Hyz. destruct (x <? z)%float eqn:E; [reflexivity|].
  destruct (leb_not_nan _ _ Hyz) as [_ Hz].
  destruct (leb_not_nan _ _ (ltb_leb _ _ Hxy)) as [Hx _].
  pose proof (ltb_false_leb x z Hx Hz E) as Hzx.
  pose proof (leb_ltb_false _ _ (leb_trans _ _ _ Hyz Hzx)) as Hno.
  congruence.
Qed.

Lemma above_threshold_truthy (r : float) :
  (0.7 <? r)%float = true → Js.truthy_number r = true.
Proof.
  intros Hr. unfold Js.truthy_number.
  destruct (leb_not_nan _ _ (ltb_leb _ _ Hr)) as [_ ->].
  destruct (is_zero r) eqn:Hz; [|reflexivity]. unfold is_zero in Hz.
  pose proof (ltb_leb_trans _ _ _ Hr (eqb_leb _ _ Hz)) as Habs.
  vm_compute in Habs. discriminate.
Qed.

(** X20: the alert policy is monotone in the risk score: if an event
    raises an alert, so does every event with the same action and a
    risk score at least as high.  And an alert raised on the score
    alone (an action other than 'block') belongs to a transaction
    whose marker on the map is orange or red, never amber or green. *)
Theorem alert_policy_monotone (t t' : Transaction.t)
    (confidence_score : option float) :
  high_risk t = true →
  (Transaction.action t' = Transaction.action t →
   (Transaction.risk_score t <=? Transaction.risk_score t')%float = true →
   high_risk t' = true)
  ∧ (Transaction.action t ≠ "block" →
     let colour := TransactionMap.getRiskColor
                     (TransactionMap.riskScore (Transaction.risk_score t)
                                               confidence_score) in
     colour = "#F44336" ∨ colour = "#FF9800").
Proof.
  intros Ht. apply high_risk_spec in Ht. split.
  - intros Hact Hle. apply high_risk_spec. rewrite Hact.
    destruct Ht as [Hb|Hr]; [now left|]. right. now apply (ltb_leb_trans _ _ _ Hr).
  - intros Hact colour. destruct Ht as [Hb|Hr]; [contradiction|].
    subst colour. unfold TransactionMap.riskScore.
    rewrite (above_threshold_truthy _ Hr).
    assert (H5 : (0.5 <=? Transaction.risk_score t)%float = true)
      by (apply (leb_trans 0.5 0.7); [reflexivity | now apply ltb_leb]).
    unfold TransactionMap.getRiskColor. rewrite H5.
    destruct (0.8 <=? _)%float; auto.
Qed.

Lemma alert_policy_monotone_witness :
  high_risk Samples.risky_approved = true
  ∧ TransactionMap.getRiskColor
      (TransactionMap.riskScore (Transaction.risk_score Samples.risky_approved) None)
    = "#F44336".
Proof.
  destruct (alert_policy_monotone Samples.risky_approved Samples.risky_approved
              None eq_refl) as [Hmono Hcolour].
  split.
  - apply Hmono; reflexivity.
  - destruct (Hcolour ltac:(discriminate)) as [H|H]; [exact H|].
    vm_compute in H. discriminate.
Defined.
